(** * FiberScheduler: a model of [FiberScheduler.py] and its properties

    The scheduler keeps a registry of named fibers (recurring pieces of work),
    a table of last trigger times and a flag [is_running].  [Run] starts a
    daemon thread that executes [RunFiberLoop]; the API functions are called
    from other threads while it runs.

    The model is a small-step interleaving semantics.  The shared store holds
    the [FiberInfo] objects and the attributes of the [FiberScheduler] object;
    every background thread is a program counter into [RunFiberLoop] together
    with its local variables; one caller thread issues the API calls (of which
    only [DeactivateFiber] takes more than one step, because it busy-waits).
    A schedule is a list of actions: a statement of one thread, an API call,
    or the passing of time.

    Time is an integer number of clock units; [time.time()] reads the clock
    of the process, which the schedule moves.  How long a fiber executes and
    how long [time.sleep] takes is the number of actions the schedule puts
    before the next statement of the thread. *)

From stdpp Require Import base option list strings gmap.
From Stdlib Require Import ZArith Lia.

(** ** Python values, exceptions and callables *)

Inductive PyExn :=
| KeyError (key : string)
| RuntimeError (msg : string)
| TypeError (msg : string)
| Exception (msg : string).

Inductive PyVal :=
| PyNone
| PyBool (b : bool).

(** How a call ends: it returns a value or an exception propagates. *)
Inductive result :=
| Return (v : PyVal)
| Raise (e : PyExn).

(** A fiber is any Python callable.  The scheduler uses its [__name__] as
    registry key and calls it either without argument or with the registered
    [args].  The body is arbitrary code: the model keeps how a call ends, which
    may depend on the argument passed and on the number of calls the scheduler
    made before this one (a callable may fail on some calls only). *)
Record callable := mkCallable {
  __name__ : string;
  __call__ : option (list Z) → nat → result
}.

(** ** [FiberInfo] (lines 6-13) *)

Record FiberInfo := mkFiberInfo {
  fiber_name        : string;
  fiber             : callable;
  args              : option (list Z);
  interval          : option Z;
  activation_status : bool;
  running_status    : bool
}.

Definition set_activation_status (b : bool) (o : FiberInfo) : FiberInfo :=
  mkFiberInfo (fiber_name o) (fiber o) (args o) (interval o) b (running_status o).

Definition set_running_status (b : bool) (o : FiberInfo) : FiberInfo :=
  mkFiberInfo (fiber_name o) (fiber o) (args o) (interval o) (activation_status o) b.

(** ** Python dictionaries that are iterated: insertion-ordered

    Assigning to a key that is present keeps its position, assigning to a new
    key appends. *)

Fixpoint dict_get {V} (k : string) (d : list (string * V)) : option V :=
  match d with
  | [] => None
  | (k', v) :: d' => if decide (k' = k) then Some v else dict_get k d'
  end.

Fixpoint dict_set {V} (k : string) (v : V) (d : list (string * V)) : list (string * V) :=
  match d with
  | [] => [(k, v)]
  | (k', v') :: d' =>
      if decide (k' = k) then (k, v) :: d' else (k', v') :: dict_set k v d'
  end.

(** ** Threads *)

(** Local variables of one iteration of the [for] loop of [RunFiberLoop]:
    the position of the dictionary iterator and the size of the dictionary
    when the iterator was created, the key [fiber_name], and [fiber_info], a
    reference to the [FiberInfo] object. *)
Record Frame := mkFrame {
  it_pos     : nat;
  it_size    : nat;
  fr_name    : string;
  fr_info    : nat
}.

(** Program counter of a background thread; the constructors are named after
    the line of [FiberScheduler.py] that is executed next. *)
Inductive LoopPC :=
| L38                                 (* self.is_running = True *)
| L39                                 (* while(self.is_running): *)
| L40 (pos size : nat)                (* for ... in self.fiber_list.items(): *)
| L41 (fr : Frame)                    (* if (self.is_running == False): break *)
| L43 (fr : Frame)                    (* elif fiber_info.activation_status == False: continue *)
| L45 (fr : Frame)                    (* elif (fiber_info.interval != None): *)
| L46 (fr : Frame)                    (* if fiber_name not in self.fiber_last_trigger_time: *)
| L47 (fr : Frame)                    (* self.fiber_last_trigger_time[fiber_name] = time.time() *)
| L48 (fr : Frame)                    (* if (time.time() - ...[fiber_name]) < fiber_info.interval: continue *)
| L51 (fr : Frame)                    (* self.fiber_last_trigger_time[fiber_name] = time.time() *)
| L52 (fr : Frame) (stamp : Z)        (* fiber_info.running_status = True *)
| L53 (fr : Frame) (stamp : Z)        (* if fiber_info.args == None: fiber() else: fiber(args) *)
| InCall (fr : Frame) (r : result)    (* the fiber is executing; it will end with r *)
| L57 (fr : Frame)                    (* fiber_info.running_status = False *)
| L58 (fr : Frame)                    (* time.sleep(0.10) *)
| Finished                            (* RunFiberLoop returned *)
| Died (e : PyExn) (during : option Frame).
                                      (* an exception left RunFiberLoop; [during] is the
                                         iteration whose fiber raised it, if any *)

Inductive ApiCall :=
| CallRegisterFiber (f : callable) (a : option (list Z)) (i : option Z) (act : bool)
| CallActivateFiber (f : callable)
| CallDeactivateFiber (f : callable)
| CallIsFiberRunning (f : callable)
| CallRun
| CallResume
| CallStop.

(** The caller thread is between calls or inside [DeactivateFiber]. *)
Inductive CallerPC :=
| Ready
| D29 (f : callable)                  (* while(self.IsFiberRunning(fiber)): pass *)
| D31 (f : callable).                 (* self.fiber_list[...].activation_status = False *)

(** One call of a fiber by the loop: who was called, on which descriptor,
    with what, and the trigger time stored at line 51 for this call. *)
Record Event := mkEvent {
  ev_name     : string;
  ev_info     : nat;
  ev_args     : option (list Z);
  ev_interval : option Z;
  ev_stamp    : Z
}.

(** ** The state of the process *)

Record State := mkState {
  (* the object store *)
  heap                    : list FiberInfo;
  (* attributes of the FiberScheduler object (lines 17-19) *)
  fiber_list              : list (string * nat);
  fiber_last_trigger_time : gmap string Z;
  is_running              : bool;
  (* the environment *)
  clock                   : Z;              (* what time.time() returns now *)
  threads                 : list LoopPC;    (* the threads started by Run, oldest first *)
  caller                  : CallerPC;
  (* history *)
  returned                : list (ApiCall * result);  (* completed API calls, latest first *)
  trace                   : list Event                (* calls of fibers, latest first *)
}.

Definition with_heap (h : list FiberInfo) (s : State) : State :=
  mkState h (fiber_list s) (fiber_last_trigger_time s) (is_running s)
          (clock s) (threads s) (caller s) (returned s) (trace s).

Definition with_fiber_list (d : list (string * nat)) (s : State) : State :=
  mkState (heap s) d (fiber_last_trigger_time s) (is_running s)
          (clock s) (threads s) (caller s) (returned s) (trace s).

Definition with_last_trigger_time (m : gmap string Z) (s : State) : State :=
  mkState (heap s) (fiber_list s) m (is_running s)
          (clock s) (threads s) (caller s) (returned s) (trace s).

Definition with_is_running (b : bool) (s : State) : State :=
  mkState (heap s) (fiber_list s) (fiber_last_trigger_time s) b
          (clock s) (threads s) (caller s) (returned s) (trace s).

Definition with_clock (t : Z) (s : State) : State :=
  mkState (heap s) (fiber_list s) (fiber_last_trigger_time s) (is_running s)
          t (threads s) (caller s) (returned s) (trace s).

Definition with_threads (ts : list LoopPC) (s : State) : State :=
  mkState (heap s) (fiber_list s) (fiber_last_trigger_time s) (is_running s)
          (clock s) ts (caller s) (returned s) (trace s).

Definition with_caller (c : CallerPC) (s : State) : State :=
  mkState (heap s) (fiber_list s) (fiber_last_trigger_time s) (is_running s)
          (clock s) (threads s) c (returned s) (trace s).

Definition with_returned (r : list (ApiCall * result)) (s : State) : State :=
  mkState (heap s) (fiber_list s) (fiber_last_trigger_time s) (is_running s)
          (clock s) (threads s) (caller s) r (trace s).

Definition with_trace (tr : list Event) (s : State) : State :=
  mkState (heap s) (fiber_list s) (fiber_last_trigger_time s) (is_running s)
          (clock s) (threads s) (caller s) (returned s) tr.

(** [FiberScheduler.__init__] (lines 16-19), in a fresh process whose clock
    reads [t0]. *)
Definition init (t0 : Z) : State :=
  mkState [] [] ∅ false t0 [] Ready [] [].

(** Writing an attribute of the object behind a reference. *)
Definition setattr (r : nat) (g : FiberInfo → FiberInfo) (s : State) : State :=
  with_heap (alter g r (heap s)) s.

(** ** The API (lines 21-35 and 60-72)

    Each function gives the state after the call and how the call ended.
    [DebugLog] comes from [MiscLib]; it writes a diagnostic line and has no
    effect on the scheduler, so it does not appear. *)

(* line 22 *)
Definition RegisterFiber (f : callable) (a : option (list Z)) (i : option Z)
    (act : bool) (s : State) : State * result :=
  let o := mkFiberInfo (__name__ f) f a i act false in
  (with_fiber_list (dict_set (__name__ f) (length (heap s)) (fiber_list s))
     (with_heap (heap s ++ [o]) s),
   Return PyNone).

(* line 25 *)
Definition ActivateFiber (f : callable) (s : State) : State * result :=
  match dict_get (__name__ f) (fiber_list s) with
  | None => (s, Raise (KeyError (__name__ f)))
  | Some r => (setattr r (set_activation_status true) s, Return PyNone)
  end.

(* line 35 *)
Definition IsFiberRunning (f : callable) (s : State) : State * result :=
  match dict_get (__name__ f) (fiber_list s) with
  | None => (s, Raise (KeyError (__name__ f)))
  | Some r =>
      match heap s !! r with
      | Some o => (s, Return (PyBool (running_status o)))
      | None => (s, Raise (RuntimeError "dangling reference"))
      end
  end.

(* lines 62-64: a new thread that will execute RunFiberLoop *)
Definition Run (s : State) : State * result :=
  (with_threads (threads s ++ [L38]) s, Return PyNone).

(* line 68 *)
Definition Resume (s : State) : State * result := Run s.

(* line 72 *)
Definition Stop (s : State) : State * result :=
  (with_is_running false s, Return PyNone).

(** What remains of a call of [DeactivateFiber]: either the caller is still
    inside (at the given line), or the call has ended. *)
Inductive Progress :=
| Still (pc : CallerPC)
| Ended (r : result).

(** One statement of [DeactivateFiber] (lines 29-31). *)
Definition DeactivateFiber_step (pc : CallerPC) (s : State) : State * Progress :=
  match pc with
  | Ready => (s, Still Ready)
  | D29 f =>
      match IsFiberRunning f s with
      | (s', Return (PyBool true)) => (s', Still (D29 f))
      | (s', Return _) => (s', Still (D31 f))
      | (s', Raise e) => (s', Ended (Raise e))
      end
  | D31 f =>
      match dict_get (__name__ f) (fiber_list s) with
      | None => (s, Ended (Raise (KeyError (__name__ f))))
      | Some r => (setattr r (set_activation_status false) s, Ended (Return PyNone))
      end
  end.

(** ** [RunFiberLoop] (lines 37-58), one statement at a time

    [time.time()] reads [clock].  The iterator of [items()] is a position in
    the dictionary and the size the dictionary had when the loop began; as
    in CPython, the next item is refused with [RuntimeError] when the size
    has changed.  A reference held in [fiber_info] always points to an object
    (objects are never freed); the model makes the thread die if it does
    not.  Nothing in [RunFiberLoop] catches an exception. *)

Definition dangling : PyExn := RuntimeError "dangling reference".

Definition continue (fr : Frame) : LoopPC := L40 (S (it_pos fr)) (it_size fr).

Definition RunFiberLoop_step (pc : LoopPC) (s : State) : State * LoopPC :=
  match pc with
  | L38 => (with_is_running true s, L39)
  | L39 =>
      if is_running s then (s, L40 0 (length (fiber_list s))) else (s, Finished)
  | L40 pos size =>
      if decide (length (fiber_list s) = size) then
        match fiber_list s !! pos with
        | Some (k, r) => (s, L41 (mkFrame pos size k r))
        | None => (s, L39)
        end
      else (s, Died (RuntimeError "dictionary changed size during iteration") None)
  | L41 fr =>
      if is_running s then (s, L43 fr) else (s, L39)
  | L43 fr =>
      match heap s !! fr_info fr with
      | Some o => if activation_status o then (s, L45 fr) else (s, continue fr)
      | None => (s, Died dangling None)
      end
  | L45 fr =>
      match heap s !! fr_info fr with
      | Some o =>
          match interval o with
          | Some _ => (s, L46 fr)
          | None => (s, L51 fr)
          end
      | None => (s, Died dangling None)
      end
  | L46 fr =>
      match fiber_last_trigger_time s !! fr_name fr with
      | None => (s, L47 fr)
      | Some _ => (s, L48 fr)
      end
  | L47 fr =>
      (with_last_trigger_time
         (<[fr_name fr := clock s]> (fiber_last_trigger_time s)) s, L48 fr)
  | L48 fr =>
      match fiber_last_trigger_time s !! fr_name fr with
      | None => (s, Died (KeyError (fr_name fr)) None)
      | Some last =>
          match heap s !! fr_info fr with
          | Some o =>
              match interval o with
              | Some i =>
                  if (clock s - last <? i)%Z then (s, continue fr) else (s, L51 fr)
              | None => (s, Died (TypeError "'<' not supported") None)
              end
          | None => (s, Died dangling None)
          end
      end
  | L51 fr =>
      (with_last_trigger_time
         (<[fr_name fr := clock s]> (fiber_last_trigger_time s)) s,
       L52 fr (clock s))
  | L52 fr stamp =>
      (setattr (fr_info fr) (set_running_status true) s, L53 fr stamp)
  | L53 fr stamp =>
      match heap s !! fr_info fr with
      | Some o =>
          (with_trace
             (mkEvent (fr_name fr) (fr_info fr) (args o) (interval o) stamp :: trace s) s,
           InCall fr (__call__ (fiber o) (args o) (length (trace s))))
      | None => (s, Died dangling None)
      end
  | InCall fr r =>
      match r with
      | Return _ => (s, L57 fr)
      | Raise e => (s, Died e (Some fr))
      end
  | L57 fr =>
      (setattr (fr_info fr) (set_running_status false) s, L58 fr)
  | L58 fr => (s, continue fr)
  | Finished => (s, Finished)
  | Died e d => (s, Died e d)
  end.

(** ** Schedules *)

Inductive Action :=
| Tick (d : Z)            (* the clock moves by d (d < 0: the wall clock is set back) *)
| Call (op : ApiCall)     (* the caller thread, between calls, calls the API *)
| CallerStep              (* the caller thread executes a statement of DeactivateFiber *)
| LoopStep (k : nat).     (* the k-th background thread executes a statement *)

Definition api (op : ApiCall) (s : State) : State * Progress :=
  match op with
  | CallRegisterFiber f a i act =>
      let '(s', r) := RegisterFiber f a i act s in (s', Ended r)
  | CallActivateFiber f => let '(s', r) := ActivateFiber f s in (s', Ended r)
  | CallDeactivateFiber f => (s, Still (D29 f))
  | CallIsFiberRunning f => let '(s', r) := IsFiberRunning f s in (s', Ended r)
  | CallRun => let '(s', r) := Run s in (s', Ended r)
  | CallResume => let '(s', r) := Resume s in (s', Ended r)
  | CallStop => let '(s', r) := Stop s in (s', Ended r)
  end.

(** Where the caller thread is after a step of the call [op]. *)
Definition settle (op : ApiCall) (sp : State * Progress) : State :=
  match sp with
  | (s, Still pc) => with_caller pc s
  | (s, Ended r) => with_caller Ready (with_returned ((op, r) :: returned s) s)
  end.

Definition step (a : Action) (s : State) : State :=
  match a with
  | Tick d => with_clock (clock s + d)%Z s
  | Call op =>
      match caller s with
      | Ready => settle op (api op s)
      | _ => s
      end
  | CallerStep =>
      match caller s with
      | Ready => s
      | D29 f => settle (CallDeactivateFiber f) (DeactivateFiber_step (D29 f) s)
      | D31 f => settle (CallDeactivateFiber f) (DeactivateFiber_step (D31 f) s)
      end
  | LoopStep k =>
      match threads s !! k with
      | Some pc =>
          let '(s', pc') := RunFiberLoop_step pc s in
          with_threads (<[k := pc']> (threads s')) s'
      | None => s
      end
  end.

Fixpoint exec (acts : list Action) (s : State) : State :=
  match acts with
  | [] => s
  | a :: acts' => exec acts' (step a s)
  end.

(** One pass of the loop of thread [k]: its statements from line 39 until it
    is at line 39 again (or [fuel] statements, if that comes first). *)
Fixpoint run_pass (k fuel : nat) (s : State) : State :=
  match fuel with
  | 0 => s
  | S fuel' =>
      let s' := step (LoopStep k) s in
      match threads s' !! k with
      | Some L39 => s'
      | _ => run_pass k fuel' s'
      end
  end.

(** Simulated clock: a pass of thread [k] at each of the times [ts]. *)
Fixpoint drive (k fuel : nat) (ts : list Z) (s : State) : State :=
  match ts with
  | [] => s
  | t :: ts' => drive k fuel ts' (run_pass k fuel (with_clock t s))
  end.

(** ** Predicates and schedules of the statements *)

(** A fiber that returns, and one that raises, on every call. *)
Definition fiber_ok (name : string) : callable :=
  mkCallable name (λ _ _, Return PyNone).

Definition fiber_bad (name : string) : callable :=
  mkCallable name (λ _ _, Raise (Exception "boom")).

(** The statements of thread [k] from line 39, through one iteration that
    calls a fiber without interval, up to the moment the fiber executes. *)
Definition into_call (k : nat) : list Action :=
  replicate 8 (LoopStep k).



(** The thread has ended. *)
Definition terminated (pc : LoopPC) : bool :=
  match pc with
  | Finished | Died _ _ => true
  | _ => false
  end.

(** The action starts a loop. *)
Definition is_start (a : Action) : bool :=
  match a with
  | Call CallRun | Call CallResume => true
  | _ => false
  end.

(** A fiber that raises on every call and a second fiber, both enabled; the
    loop has selected the first and is about to call it (line 53). *)
Definition raising_schedule : list Action :=
  [Call (CallRegisterFiber (fiber_bad "T") None None true);
   Call (CallRegisterFiber (fiber_ok "other") None None true);
   Call CallRun] ++ replicate 8 (LoopStep 0).

(** Every action of the schedule satisfies [ok] in the state in which it is
    executed. *)
Fixpoint admissible (ok : Action → State → bool) (acts : list Action) (s : State) : bool :=
  match acts with
  | [] => true
  | a :: acts' => ok a s && admissible ok acts' (step a s)
  end.

(** Two states of a descriptor: only the two flags are ever assigned. *)
Definition same_static (o o' : FiberInfo) : Prop :=
  fiber_name o' = fiber_name o ∧ fiber o' = fiber o ∧
  args o' = args o ∧ interval o' = interval o.

(** The object store grows, and the objects it had keep their static
    fields. *)
Definition heap_evolves (h h' : list FiberInfo) : Prop :=
  length h ≤ length h' ∧
  ∀ r o' , h' !! r = Some o' → r < length h →
    ∃ o, h !! r = Some o ∧ same_static o o'.

(** The iteration a thread is in. *)
Definition frame_of (pc : LoopPC) : option Frame :=
  match pc with
  | L41 fr | L43 fr | L45 fr | L46 fr | L47 fr | L48 fr | L51 fr
  | L52 fr _ | L53 fr _ | InCall fr _ | L57 fr | L58 fr => Some fr
  | Died _ d => d
  | L38 | L39 | L40 _ _ | Finished => None
  end.

(** The reference [r] points to a descriptor registered under [key]. *)
Definition named (h : list FiberInfo) (key : string) (r : nat) : Prop :=
  ∃ o, h !! r = Some o ∧ fiber_name o = key.

(** The references in the registry and in the threads point to descriptors
    of the right name. *)
Definition wf (s : State) : Prop :=
  (∀ key r, (key, r) ∈ fiber_list s → named (heap s) key r) ∧
  (∀ k pc fr, threads s !! k = Some pc → frame_of pc = Some fr →
     named (heap s) (fr_name fr) (fr_info fr)).

(** Between the test of the enabled flag (line 43) and the call. *)
Definition selected (pc : LoopPC) : option Frame :=
  match pc with
  | L45 fr | L46 fr | L47 fr | L48 fr | L51 fr | L52 fr _ | L53 fr _ => Some fr
  | _ => None
  end.

(** Every descriptor of name [n] has its enabled flag False. *)
Definition disabled (n : string) (s : State) : bool :=
  forallb (λ o, negb (bool_decide (fiber_name o = n) && activation_status o)) (heap s).

(** No thread is between line 43 and the call for the name [n]. *)
Definition not_selected (n : string) (s : State) : bool :=
  forallb (λ pc, match selected pc with
                 | Some fr => negb (bool_decide (fr_name fr = n))
                 | None => true
                 end) (threads s).

(** The action does not set the enabled flag of [n]. *)
Definition keeps_disabled (n : string) (a : Action) : bool :=
  match a with
  | Call (CallActivateFiber f) => negb (bool_decide (__name__ f = n))
  | Call (CallRegisterFiber f _ _ act) => negb (bool_decide (__name__ f = n) && act)
  | _ => true
  end.

(** A disabled fiber with interval 0 and an argument, and an enabled one. *)
Definition idle_schedule : list Action :=
  [Call (CallRegisterFiber (fiber_ok "T") (Some [7%Z]) (Some 0%Z) false);
   Call (CallRegisterFiber (fiber_ok "U") None None true);
   Call CallRun; LoopStep 0].

(** The descriptor whose running flag the thread has set and not yet
    cleared: line 52 has been executed, line 57 has not. *)
Definition in_call (pc : LoopPC) : option nat :=
  match pc with
  | L53 fr _ | InCall fr _ | L57 fr => Some (fr_info fr)
  | _ => None
  end.

(** The descriptor in whose call the thread died. *)
Definition died_in (pc : LoopPC) : option nat :=
  match pc with
  | Died _ (Some fr) => Some (fr_info fr)
  | _ => None
  end.

(** [Run] and [Resume] are called at most once. *)
Definition first_start (a : Action) (s : State) : bool :=
  if is_start a then match threads s with [] => true | _ => false end else true.

(** With one loop, the running flag of a descriptor is True exactly when the
    loop is in its call or died in it. *)
Definition running_inv (s : State) : Prop :=
  wf s ∧ length (threads s) ≤ 1 ∧
  ∀ r o, heap s !! r = Some o →
    (running_status o = true ↔
     ∃ pc, threads s !! 0 = Some pc ∧ (in_call pc = Some r ∨ died_in pc = Some r)).


(** The trigger time a thread has stored at line 51 for the call it is about
    to make. *)
Definition stamped (pc : LoopPC) : option (Frame * Z) :=
  match pc with
  | L52 fr st | L53 fr st => Some (fr, st)
  | _ => None
  end.





(** The scheduler with one enabled fiber with an interval, and one loop at
    the program counter [pc]. *)
Definition lone_at (pc : LoopPC) (f : callable) (a : option (list Z)) (iv : Z)
    (m : gmap string Z) (t : Z) (rs : list (ApiCall * result)) (tr : list Event) : State :=
  mkState [mkFiberInfo (__name__ f) f a (Some iv) true false] [(__name__ f, 0)]
          m true t [pc] Ready rs tr.

(** ** Schedules with two loops, and loops that are late *)

(** A fiber that raises on its first call only. *)
Definition fiber_once (name : string) : callable :=
  mkCallable name (λ _ n, if n is 0 then Raise (Exception "boom") else Return PyNone).




(** [Stop] and [Resume] while the loop is inside a pass: the loop that [Run]
    started has passed the test of line 41 and goes on, next to the loop that
    [Resume] starts.  The first loop then calls the fiber, which raises. *)
Definition resumed_schedule : list Action :=
  [Call (CallRegisterFiber (fiber_once "T") None None true);
   Call (CallRegisterFiber (fiber_ok "other") None None true);
   Call CallRun]
  ++ replicate 5 (LoopStep 0)                  (* past line 41, at line 45 *)
  ++ [Call CallStop; Call CallResume; LoopStep 1]
  ++ replicate 5 (LoopStep 0).                 (* the call raises, the loop dies *)

(** The loop has passed the test of line 43 when [DeactivateFiber] is called;
    the fiber is not running, so [DeactivateFiber] returns at once. *)
Definition deactivate_late : list Action :=
  [Call (CallRegisterFiber (fiber_ok "T") None None true); Call CallRun]
  ++ replicate 5 (LoopStep 0)                  (* line 43 passes, at line 45 *)
  ++ [Call (CallDeactivateFiber (fiber_ok "T")); CallerStep; CallerStep].

(** The loop has fetched the item of a name (line 40) when the name is
    registered again, disabled: the thread holds the descriptor that was
    replaced. *)
Definition reregister_late : list Action :=
  [Call (CallRegisterFiber (fiber_ok "T") None None true); Call CallRun]
  ++ replicate 3 (LoopStep 0)                  (* line 40, at line 41 *)
  ++ [Call (CallRegisterFiber (fiber_ok "T") None None false)].

(** A name registered enabled and then again, disabled, and a second, enabled
    fiber: the descriptor the registry has for the name is disabled, the one
    it replaced is not. *)
Definition reregistered_schedule : list Action :=
  [Call (CallRegisterFiber (fiber_ok "T") None None true);
   Call (CallRegisterFiber (fiber_ok "T") (Some [7%Z]) (Some 0%Z) false);
   Call (CallRegisterFiber (fiber_ok "U") None None true);
   Call CallRun; LoopStep 0].

(** The descriptor the registry has for the name [n], if any, is disabled. *)
Definition registered_disabled (n : string) (s : State) : bool :=
  forallb (λ kr, negb (bool_decide (kr.1 = n)) ||
                 match heap s !! kr.2 with
                 | Some o => negb (activation_status o)
                 | None => true
                 end) (fiber_list s).

(** No thread that has fetched an item of the name [n] and has not yet
    tested its enabled flag (lines 41 and 43) holds an enabled descriptor. *)
Definition pending_disabled (n : string) (s : State) : bool :=
  forallb (λ pc, match pc with
                 | L41 fr | L43 fr =>
                     negb (bool_decide (fr_name fr = n)) ||
                     match heap s !! fr_info fr with
                     | Some o => negb (activation_status o)
                     | None => true
                     end
                 | _ => true
                 end) (threads s).

(** ** Predicates of the further properties *)

(** The thread has passed the test of [is_running] at line 41 for the
    current iteration and has not yet called the fiber. *)
Definition committed (pc : LoopPC) : bool :=
  match pc with
  | L43 _ | L45 _ | L46 _ | L47 _ | L48 _ | L51 _ | L52 _ _ | L53 _ _ => true
  | _ => false
  end.

Definition count_committed (ts : list LoopPC) : nat :=
  length (List.filter committed ts).

(** The thread has not yet executed its first statement, which sets
    [is_running]. *)
Definition unstarted (pc : LoopPC) : bool :=
  match pc with
  | L38 => true
  | _ => false
  end.

(** The number of statements a thread at [pc] executes at most before it
    ends, once [is_running] is False. *)
Definition rank (pc : LoopPC) : nat :=
  match pc with
  | Finished | Died _ _ => 0
  | L39 => 1
  | L41 _ => 2
  | L40 _ _ => 3
  | L58 _ => 4
  | L57 _ => 5
  | InCall _ _ => 6
  | L53 _ _ => 7
  | L52 _ _ => 8
  | L51 _ => 9
  | L48 _ => 10
  | L47 _ => 11
  | L46 _ => 12
  | L45 _ => 13
  | L43 _ => 14
  | L38 => 15
  end.

(** The number of statements of thread [k] in a schedule. *)
Definition statements_of (k : nat) (acts : list Action) : nat :=
  length (List.filter (λ a, match a with
                            | LoopStep j => bool_decide (j = k)
                            | _ => false
                            end) acts).

(** The state in which every loop is stopped for good: [is_running] is
    False and no thread is about to set it. *)
Definition stopped (s : State) : bool :=
  negb (is_running s) && forallb (λ pc, negb (unstarted pc)) (threads s).

(** The times of successive passes of a clock that does not go back. *)
Fixpoint nondecreasing (ts : list Z) : bool :=
  match ts with
  | t1 :: ts' =>
      match ts' with
      | t2 :: _ => (t1 <=? t2)%Z && nondecreasing ts'
      | [] => true
      end
  | [] => true
  end.

(** The descriptor behind [r] is enabled and has no interval, and every
    call of its fiber returns. *)
Definition ready (h : list FiberInfo) (r : nat) : Prop :=
  ∃ o, h !! r = Some o ∧ activation_status o = true ∧ interval o = None ∧
       ∀ n, ∃ v, __call__ (fiber o) (args o) n = Return v.

(** The descriptor behind [r] has its running flag False. *)
Definition idle (h : list FiberInfo) (r : nat) : Prop :=
  ∃ o, h !! r = Some o ∧ running_status o = false.

(** One enabled fiber; the loop has passed the test of line 41 for it. *)
Definition stop_state : State :=
  exec ([Call (CallRegisterFiber (fiber_ok "T") None None true); Call CallRun]
        ++ replicate 4 (LoopStep 0)) (init 0).

(** The action is a statement of a loop. *)
Definition is_loop_step (a : Action) : bool :=
  match a with
  | LoopStep _ => true
  | _ => false
  end.

(** * Properties *)

(** ** Dictionaries *)

Lemma dict_get_set_eq {V} (k : string) (v : V) d :
  dict_get k (dict_set k v d) = Some v.
Proof.
  induction d as [|[k' v'] d IH]; simpl.
  - by rewrite decide_True.
  - destruct (decide (k' = k)) as [->|Hne]; simpl.
    + by rewrite decide_True.
    + by rewrite decide_False.
Qed.

Lemma dict_get_set_ne {V} (k k0 : string) (v : V) d :
  k ≠ k0 → dict_get k0 (dict_set k v d) = dict_get k0 d.
Proof.
  intros Hne. induction d as [|[k' v'] d IH]; simpl.
  - by rewrite decide_False.
  - destruct (decide (k' = k)) as [->|Hk]; simpl.
    + by rewrite !decide_False.
    + destruct (decide (k' = k0)); auto.
Qed.

Lemma dict_set_keys {V} (k : string) (v : V) d :
  is_Some (dict_get k d) → (dict_set k v d).*1 = d.*1.
Proof.
  induction d as [|[k' v'] d IH]; simpl.
  - by intros [? ?].
  - destruct (decide (k' = k)) as [->|Hk]; simpl; [done|].
    intros H. f_equal. by apply IH.
Qed.

Lemma dict_set_length_old {V} (k : string) (v : V) d :
  is_Some (dict_get k d) → length (dict_set k v d) = length d.
Proof.
  intros H. pose proof (f_equal length (dict_set_keys k v d H)) as E.
  by rewrite !length_fmap in E.
Qed.

Lemma dict_set_new {V} (k : string) (v : V) d :
  dict_get k d = None → dict_set k v d = d ++ [(k, v)].
Proof.
  induction d as [|[k' v'] d IH]; simpl; [done|].
  destruct (decide (k' = k)); [done|]. intros H. by rewrite IH.
Qed.

Lemma dict_get_elem {V} (k : string) (v : V) d :
  dict_get k d = Some v → (k, v) ∈ d.
Proof.
  induction d as [|[k' v'] d IH]; simpl; [done|].
  destruct (decide (k' = k)) as [->|Hk].
  - intros [= ->]. left.
  - intros H. right. auto.
Qed.

Lemma dict_set_elem {V} (k k0 : string) (v v0 : V) d :
  (k0, v0) ∈ dict_set k v d → (k0, v0) = (k, v) ∨ (k0, v0) ∈ d.
Proof.
  induction d as [|[k' v'] d IH]; simpl.
  - intros H%list_elem_of_singleton. by left.
  - destruct (decide (k' = k)) as [->|Hk].
    + intros [->|H]%elem_of_cons; [by left|]. right. by right.
    + intros [->|H]%elem_of_cons; [right; left|].
      destruct (IH H); [by left|]. right. by right.
Qed.

(** ** Names that are not registered *)

(** C6: [ActivateFiber], [IsFiberRunning] and [DeactivateFiber] on a name
    that is not registered end with the exception [KeyError] for that name
    (the scheduler's unknown-task failure), and the state of the scheduler is
    the one before the call: only the failed call is recorded. *)
Theorem unregistered_name_KeyError (f : callable) (s : State) :
  dict_get (__name__ f) (fiber_list s) = None →
  caller s = Ready →
  let failed op :=
    with_returned ((op, Raise (KeyError (__name__ f))) :: returned s) s in
  ActivateFiber f s = (s, Raise (KeyError (__name__ f))) ∧
  IsFiberRunning f s = (s, Raise (KeyError (__name__ f))) ∧
  DeactivateFiber_step (D29 f) s = (s, Ended (Raise (KeyError (__name__ f)))) ∧
  step (Call (CallActivateFiber f)) s = failed (CallActivateFiber f) ∧
  step (Call (CallIsFiberRunning f)) s = failed (CallIsFiberRunning f) ∧
  exec [Call (CallDeactivateFiber f); CallerStep] s = failed (CallDeactivateFiber f).
Proof.
  intros Hget Hc. destruct s as [h d m b t ts c rs tr]. simpl in *. subst c.
  unfold ActivateFiber, IsFiberRunning, DeactivateFiber_step, step, api,
    IsFiberRunning, ActivateFiber; simpl.
  rewrite !Hget. simpl. done.
Qed.

(** With one fiber registered, the three calls on another name. *)
Lemma unregistered_name_KeyError_witness :
  let s := exec [Call (CallRegisterFiber (fiber_ok "T") None None false)] (init 0) in
  let f := fiber_ok "missing" in
  ActivateFiber f s = (s, Raise (KeyError "missing")) ∧
  IsFiberRunning f s = (s, Raise (KeyError "missing")) ∧
  exec [Call (CallDeactivateFiber f); CallerStep] s =
    with_returned ((CallDeactivateFiber f, Raise (KeyError "missing")) :: returned s) s.
Proof.
  pose proof (unregistered_name_KeyError (fiber_ok "missing")
    (exec [Call (CallRegisterFiber (fiber_ok "T") None None false)] (init 0))
    eq_refl eq_refl) as (H1 & H2 & _ & _ & _ & H6).
  split; [exact H1|]. split; [exact H2|exact H6].
Defined.

(** ** Starting the loop *)

(** C8, as the code has it: [Run] and [Resume] start a new background thread
    at the head of [RunFiberLoop] in every state, whether or not a loop is
    active already, and return normally; the threads that exist are left as
    they are. *)
Theorem Run_always_starts_thread (s : State) :
  caller s = Ready →
  Run s = (with_threads (threads s ++ [L38]) s, Return PyNone) ∧
  Resume s = Run s ∧
  step (Call CallRun) s =
    with_returned ((CallRun, Return PyNone) :: returned s)
      (with_threads (threads s ++ [L38]) s) ∧
  step (Call CallResume) s =
    with_returned ((CallResume, Return PyNone) :: returned s)
      (with_threads (threads s ++ [L38]) s).
Proof.
  intros Hc. destruct s as [h d m b t ts c rs tr]. simpl in *. by subst c.
Qed.

(** [Run] in a state where the loop is active. *)
Lemma Run_always_starts_thread_witness :
  let s := exec [Call CallRun; LoopStep 0] (init 0) in
  is_running s = true ∧
  Run s = (with_threads [L39; L38] s, Return PyNone).
Proof.
  split; [reflexivity|].
  exact (proj1 (Run_always_starts_thread (exec [Call CallRun; LoopStep 0] (init 0)) eq_refl)).
Defined.

(** C8 fails as stated: with the loop active ([is_running] is True and the
    first thread is inside the loop), a second [Run] returns normally, and
    then two threads execute the fiber at the same time. *)
Lemma Run_twice_two_loops :
  let s1 := exec ([Call (CallRegisterFiber (fiber_ok "T") None None true);
                   Call CallRun; LoopStep 0] ++ into_call 0) (init 0) in
  let s2 := exec (Call CallRun :: LoopStep 1 :: into_call 1) s1 in
  is_running s1 = true ∧
  head (returned s2) = Some (CallRun, Return PyNone) ∧
  threads s2 = [InCall (mkFrame 0 1 "T" 0) (Return PyNone);
                InCall (mkFrame 0 1 "T" 0) (Return PyNone)].
Proof. vm_compute. done. Qed.

(** ** Registering a name again *)

(** C9: [RegisterFiber] binds the name to a new descriptor whose running flag
    is False and leaves [fiber_last_trigger_time] as it is; when the name was
    registered before, the keys of the registry and their order stay the same.
    So when the name has a trigger time from an earlier registration, the loop
    does not seed it at line 46: it goes on to line 48 and compares the clock
    with the inherited time, against the new interval. *)
Theorem RegisterFiber_keeps_last_trigger_time
    (f : callable) (a : option (list Z)) (i : option Z) (act : bool) (s : State) :
  let s' := (RegisterFiber f a i act s).1 in
  let r := length (heap s) in
  fiber_last_trigger_time s' = fiber_last_trigger_time s ∧
  dict_get (__name__ f) (fiber_list s') = Some r ∧
  heap s' !! r = Some (mkFiberInfo (__name__ f) f a i act false) ∧
  IsFiberRunning f s' = (s', Return (PyBool false)) ∧
  (is_Some (dict_get (__name__ f) (fiber_list s)) →
     (fiber_list s').*1 = (fiber_list s).*1) ∧
  (∀ last pos size,
     fiber_last_trigger_time s !! __name__ f = Some last →
     let fr := mkFrame pos size (__name__ f) r in
     RunFiberLoop_step (L46 fr) s' = (s', L48 fr) ∧
     ∀ iv, i = Some iv →
       RunFiberLoop_step (L48 fr) s' =
         (s', if (clock s - last <? iv)%Z then continue fr else L51 fr)).
Proof.
  intros s' r. subst s' r. unfold IsFiberRunning. simpl.
  rewrite dict_get_set_eq.
  assert (Hr : (heap s ++ [mkFiberInfo (__name__ f) f a i act false]) !! length (heap s)
               = Some (mkFiberInfo (__name__ f) f a i act false)).
  { rewrite lookup_app_r by lia. by rewrite Nat.sub_diag. }
  rewrite Hr. simpl. repeat split; try done.
  - apply dict_set_keys.
  - simpl. by rewrite H.
  - intros iv ->. simpl. rewrite H. by destruct (_ <? _)%Z.
Qed.

(** The fiber was called at time 5 and is registered again with interval
    3: the trigger time 5 is still there and line 46 does not seed. *)
Lemma RegisterFiber_keeps_last_trigger_time_witness :
  let f := fiber_ok "T" in
  let s := drive 0 20 [0; 1; 2; 3; 4; 5]%Z
             (exec [Call (CallRegisterFiber f None (Some 5%Z) true);
                    Call CallRun; LoopStep 0] (init 0)) in
  let s' := (RegisterFiber f None (Some 3%Z) true s).1 in
  fiber_last_trigger_time s !! "T" = Some 5%Z ∧
  fiber_last_trigger_time s' = fiber_last_trigger_time s ∧
  RunFiberLoop_step (L46 (mkFrame 0 1 "T" 1)) s' = (s', L48 (mkFrame 0 1 "T" 1)).
Proof.
  pose proof (RegisterFiber_keeps_last_trigger_time (fiber_ok "T") None (Some 3%Z) true
    (drive 0 20 [0; 1; 2; 3; 4; 5]%Z
       (exec [Call (CallRegisterFiber (fiber_ok "T") None (Some 5%Z) true);
              Call CallRun; LoopStep 0] (init 0))))
    as (H1 & _ & _ & _ & _ & H6).
  split; [by vm_compute|]. split; [exact H1|].
  exact (proj1 (H6 5%Z 0 1 eq_refl)).
Defined.

(** ** Deactivation *)




(** ** What each kind of step leaves alone *)

Lemma IsFiberRunning_state (f : callable) (s : State) : (IsFiberRunning f s).1 = s.
Proof. unfold IsFiberRunning. repeat case_match; done. Qed.

Lemma RunFiberLoop_step_frame (pc : LoopPC) (s : State) :
  let s' := (RunFiberLoop_step pc s).1 in
  fiber_list s' = fiber_list s ∧ clock s' = clock s ∧ threads s' = threads s ∧
  caller s' = caller s ∧ returned s' = returned s ∧
  length (heap s') = length (heap s).
Proof.
  destruct pc; simpl; repeat case_match; simpl;
    rewrite ?length_alter; done.
Qed.

Lemma caller_step_frame (pc : CallerPC) (s : State) :
  let s' := (DeactivateFiber_step pc s).1 in
  fiber_list s' = fiber_list s ∧ clock s' = clock s ∧ threads s' = threads s ∧
  trace s' = trace s ∧ is_running s' = is_running s ∧
  fiber_last_trigger_time s' = fiber_last_trigger_time s ∧
  length (heap s') = length (heap s).
Proof.
  destruct pc; simpl; [done| |].
  - pose proof (IsFiberRunning_state f s) as E. destruct (IsFiberRunning f s) as [s' r].
    simpl in E. subst s'. repeat case_match; done.
  - repeat case_match; simpl; rewrite ?length_alter; done.
Qed.

Lemma settle_frame (op : ApiCall) (sp : State * Progress) :
  let s' := settle op sp in
  heap s' = heap sp.1 ∧ fiber_list s' = fiber_list sp.1 ∧
  fiber_last_trigger_time s' = fiber_last_trigger_time sp.1 ∧
  is_running s' = is_running sp.1 ∧ clock s' = clock sp.1 ∧
  threads s' = threads sp.1 ∧ trace s' = trace sp.1.
Proof. destruct sp as [s []]; done. Qed.

(** ** A thread that has ended *)

Lemma terminated_step (pc : LoopPC) (s : State) :
  terminated pc = true → RunFiberLoop_step pc s = (s, pc).
Proof. by destruct pc. Qed.


Lemma all_terminated_step (a : Action) (s : State) :
  Forall (λ pc, terminated pc = true) (threads s) →
  is_start a = false →
  trace (step a s) = trace s ∧ threads (step a s) = threads s.
Proof.
  intros Hall Ha. destruct a as [d|op| |k]; unfold step.
  - done.
  - destruct (caller s); [|done..].
    destruct (settle_frame op (api op s)) as (_ & _ & _ & _ & _ & -> & ->).
    destruct op; try done; simpl; unfold ActivateFiber, IsFiberRunning;
      repeat case_match; simplify_eq; done.
  - destruct (caller s) as [|f|f]; [done| |].
    + destruct (settle_frame (CallDeactivateFiber f) (DeactivateFiber_step (D29 f) s))
        as (_ & _ & _ & _ & _ & -> & ->).
      by destruct (caller_step_frame (D29 f) s) as (_ & _ & -> & -> & _).
    + destruct (settle_frame (CallDeactivateFiber f) (DeactivateFiber_step (D31 f) s))
        as (_ & _ & _ & _ & _ & -> & ->).
      by destruct (caller_step_frame (D31 f) s) as (_ & _ & -> & -> & _).
  - destruct (threads s !! k) as [pc|] eqn:Hk; [|done].
    rewrite terminated_step by (eapply (Forall_lookup_1 _ _ _ _ Hall Hk)).
    simpl. by rewrite list_insert_id.
Qed.

(** ** A fiber that raises *)

(** C5, as the code has it: when the call of a fiber raises, the exception is
    neither caught nor replaced: the thread that executes [RunFiberLoop] ends
    with that very exception.  When every other loop thread has ended, so
    that this was the only live loop, no fiber is called any more, whatever
    happens next, unless [Run] or [Resume] is called. *)
Theorem fiber_exception_kills_loop
    (s : State) (k : nat) (fr : Frame) (stamp : Z) (o : FiberInfo) (e : PyExn) :
  threads s !! k = Some (L53 fr stamp) →
  heap s !! fr_info fr = Some o →
  __call__ (fiber o) (args o) (length (trace s)) = Raise e →
  (∀ j pc, j ≠ k → threads s !! j = Some pc → terminated pc = true) →
  let s1 := exec [LoopStep k; LoopStep k] s in
  threads s1 !! k = Some (Died e (Some fr)) ∧
  ∀ acts, Forall (λ a, is_start a = false) acts →
    trace (exec acts s1) = trace s1 ∧ threads (exec acts s1) = threads s1.
Proof.
  intros Hk Ho He Hother s1.
  assert (Hs1 : threads s1 = <[k := Died e (Some fr)]> (threads s)).
  { subst s1. simpl. rewrite Hk. simpl. rewrite Ho, He. simpl.
    rewrite list_lookup_insert_eq by (by eapply lookup_lt_Some). simpl.
    by rewrite list_insert_insert_eq. }
  split.
  { rewrite Hs1. apply list_lookup_insert_eq. by eapply lookup_lt_Some. }
  assert (Hall : Forall (λ pc, terminated pc = true) (threads s1)).
  { rewrite Hs1. apply Forall_lookup_2. intros j pc Hj.
    destruct (decide (k = j)) as [->|Hne].
    - rewrite list_lookup_insert_eq in Hj by (by eapply lookup_lt_Some).
      by injection Hj as <-.
    - rewrite list_lookup_insert_ne in Hj by done. eauto. }
  clearbody s1. clear Hs1. intros acts Hacts.
  induction Hacts as [|a acts Ha _ IH] in s1, Hall |- *; [done|].
  simpl. destruct (all_terminated_step a s1 Hall Ha) as [Htr Hth].
  rewrite <-Htr, <-Hth. apply IH. by rewrite Hth.
Qed.

(** The fiber raises: the loop dies with its exception, and the second fiber
    is never called. *)
Lemma fiber_exception_kills_loop_witness :
  let s1 := exec [LoopStep 0; LoopStep 0] (exec raising_schedule (init 0)) in
  threads s1 !! 0 = Some (Died (Exception "boom") (Some (mkFrame 0 2 "T" 0))) ∧
  trace (exec [Tick 100; LoopStep 0; Call CallStop; LoopStep 0] s1) = trace s1.
Proof.
  assert (Hk : threads (exec raising_schedule (init 0)) !! 0
               = Some (L53 (mkFrame 0 2 "T" 0) 0%Z)) by (vm_compute; reflexivity).
  assert (Ho : heap (exec raising_schedule (init 0)) !! fr_info (mkFrame 0 2 "T" 0)
               = Some (mkFiberInfo "T" (fiber_bad "T") None None true true))
    by (vm_compute; reflexivity).
  assert (Hother : ∀ j pc, j ≠ 0 →
            threads (exec raising_schedule (init 0)) !! j = Some pc →
            terminated pc = true).
  { intros [|j] pc Hj; [done|]. vm_compute. by destruct j. }
  destruct (fiber_exception_kills_loop _ 0 _ _ _ (Exception "boom") Hk Ho eq_refl Hother)
    as [H1 H2].
  split; [exact H1|].
  apply (H2 [Tick 100; LoopStep 0; Call CallStop; LoopStep 0]).
  repeat constructor.
Defined.

(** C5 fails as stated: after [Run], [Stop] and [Resume] two loops are
    alive.  The call of the fiber raises and the loop that made it dies; with
    no further [Run] or [Resume], the other loop calls the fiber again and
    then the second fiber, whose running flag becomes True. *)
Lemma second_loop_survives_exception :
  let s1 := exec resumed_schedule (init 0) in
  let acts := replicate 18 (LoopStep 1) in
  let s2 := exec acts s1 in
  threads s1 = [Died (Exception "boom") (Some (mkFrame 0 2 "T" 0)); L39] ∧
  ev_name <$> trace s1 = ["T"] ∧
  forallb (λ a, negb (is_start a)) acts = true ∧
  ev_name <$> trace s2 = ["other"; "T"; "T"] ∧
  IsFiberRunning (fiber_ok "other") s2 = (s2, Return (PyBool true)).
Proof. vm_compute. repeat split. Qed.

(** After the loop died in the first call of a fiber, [Run] starts a loop
    that calls fibers again. *)
Lemma restart_after_exception :
  let once := mkCallable "T"
                (λ _ n, if n is 0 then Raise (Exception "boom") else Return PyNone) in
  let s := exec ([Call (CallRegisterFiber once None None true); Call CallRun]
                 ++ replicate 11 (LoopStep 0)) (init 0) in
  let s' := exec (Call CallRun :: replicate 10 (LoopStep 1)) s in
  threads s = [Died (Exception "boom") (Some (mkFrame 0 1 "T" 0))] ∧
  length (trace s) = 1 ∧ length (trace s') = 2.
Proof. vm_compute. repeat split. Qed.

(** ** The busy-wait of [DeactivateFiber] *)

Lemma waiting_step (f : callable) (a : Action) (s : State) :
  caller s = D29 f →
  (IsFiberRunning f s).2 = Return (PyBool true) →
  caller (step a s) = D29 f ∧ returned (step a s) = returned s.
Proof.
  intros Hc Hrun. destruct a as [d|op| |k]; unfold step.
  - done.
  - by rewrite Hc.
  - rewrite Hc. unfold DeactivateFiber_step.
    destruct (IsFiberRunning f s) as [s' r] eqn:E.
    pose proof (IsFiberRunning_state f s) as Es. rewrite E in Es. simpl in *.
    subst s' r. done.
  - destruct (threads s !! k) as [pc|]; [|done].
    destruct (RunFiberLoop_step_frame pc s) as (_ & _ & _ & Hc' & Hr' & _).
    destruct (RunFiberLoop_step pc s) as [s' pc']. simpl in *. by rewrite Hc', Hr'.
Qed.

(** C10: the wait of [DeactivateFiber] ends only by reading the running flag
    False.  A caller that is in the wait on a fiber whose running flag is True
    in every state of a schedule is still in the wait at the end of the
    schedule, however long it is, and no call has returned; and when a
    statement of the caller leaves the wait for line 31, the flag it read was
    False. *)
Theorem DeactivateFiber_spins_while_running (f : callable) :
  (∀ acts s,
     caller s = D29 f →
     (∀ n, (IsFiberRunning f (exec (take n acts) s)).2 = Return (PyBool true)) →
     caller (exec acts s) = D29 f ∧ returned (exec acts s) = returned s) ∧
  (∀ s,
     caller s = D29 f →
     caller (step CallerStep s) = D31 f →
     (IsFiberRunning f s).2 = Return (PyBool false)).
Proof.
  split.
  - intros acts. induction acts as [|a acts IH]; intros s Hc Hrun; [done|].
    destruct (waiting_step f a s Hc (Hrun 0)) as [Hc' Hr'].
    simpl. rewrite <-Hr'. apply IH; [done|].
    intros n. apply (Hrun (S n)).
  - intros s Hc. unfold step. rewrite Hc. unfold DeactivateFiber_step.
    destruct (IsFiberRunning f s) as [s' r] eqn:E. simpl.
    destruct r as [[|[|]]|e]; simpl; try done.
    unfold IsFiberRunning in E. repeat case_match; simplify_eq.
Qed.

(** The fiber raised, so its running flag stays True and nobody clears it:
    [DeactivateFiber] on it does not return. *)
Lemma DeactivateFiber_spins_while_running_witness :
  let f := fiber_bad "T" in
  let s := exec [LoopStep 0; LoopStep 0; Call (CallDeactivateFiber f)]
             (exec raising_schedule (init 0)) in
  IsFiberRunning f s = (s, Return (PyBool true)) ∧
  caller (exec [CallerStep; Tick 1; LoopStep 0; CallerStep] s) = D29 f.
Proof.
  split; [vm_compute; reflexivity|].
  refine (proj1 (proj1 (DeactivateFiber_spins_while_running (fiber_bad "T"))
    [CallerStep; Tick 1; LoopStep 0; CallerStep] _ _ _)).
  - vm_compute; reflexivity.
  - intros [|[|[|[|n]]]]; cbn [take]; rewrite ?take_nil; vm_compute; reflexivity.
Defined.

(** ** Schedules that respect a condition *)

Lemma exec_invariant (ok : Action → State → bool) (P : State → Prop) :
  (∀ a s, ok a s = true → P s → P (step a s)) →
  ∀ acts s, admissible ok acts s = true → P s → P (exec acts s).
Proof.
  intros Hstep acts. induction acts as [|a acts IH]; intros s Hok HP; [done|].
  simpl in *. apply andb_prop in Hok as [Ha Hacts]. eauto.
Qed.

Lemma exec_invariant_always (P : State → Prop) :
  (∀ a s, P s → P (step a s)) → ∀ acts s, P s → P (exec acts s).
Proof.
  intros Hstep acts. induction acts as [|a acts IH]; intros s HP; simpl; auto.
Qed.

Lemma exec_app (acts1 acts2 : list Action) (s : State) :
  exec (acts1 ++ acts2) s = exec acts2 (exec acts1 s).
Proof. revert s. induction acts1 as [|a acts1 IH]; intros s; simpl; auto. Qed.

(** ** The object store only grows, and descriptors keep their static fields *)

Lemma heap_evolves_refl h : heap_evolves h h.
Proof. split; [done|]. intros r o' Hr _. exists o'. by repeat split. Qed.

Lemma heap_evolves_alter (g : FiberInfo → FiberInfo) r h :
  (∀ o, same_static o (g o)) → heap_evolves h (alter g r h).
Proof.
  intros Hg. split; [by rewrite length_alter|].
  intros r' o' Hr' Hlt. destruct (decide (r = r')) as [->|Hne].
  - rewrite list_lookup_alter_eq in Hr'.
    destruct (h !! r') as [o|] eqn:E; simplify_eq/=. eauto.
  - rewrite list_lookup_alter_ne in Hr' by done. exists o'. by repeat split.
Qed.

Lemma heap_evolves_app h o : heap_evolves h (h ++ [o]).
Proof.
  split; [rewrite length_app; lia|].
  intros r o' Hr Hlt. rewrite lookup_app_l in Hr by done.
  exists o'. by repeat split.
Qed.

Lemma same_static_activation b o : same_static o (set_activation_status b o).
Proof. by repeat split. Qed.

Lemma same_static_running b o : same_static o (set_running_status b o).
Proof. by repeat split. Qed.

Lemma RunFiberLoop_step_heap (pc : LoopPC) (s : State) :
  heap_evolves (heap s) (heap (RunFiberLoop_step pc s).1).
Proof.
  destruct pc; simpl; repeat case_match; simpl;
    first [apply heap_evolves_refl
          |apply heap_evolves_alter, same_static_running].
Qed.

Lemma step_heap (a : Action) (s : State) :
  heap_evolves (heap s) (heap (step a s)).
Proof.
  destruct a as [d|op| |k]; unfold step.
  - apply heap_evolves_refl.
  - destruct (caller s); try apply heap_evolves_refl.
    destruct (settle_frame op (api op s)) as (-> & _).
    destruct op; simpl; unfold ActivateFiber, IsFiberRunning;
      repeat case_match; simplify_eq/=;
      first [apply heap_evolves_refl | apply heap_evolves_app
            |apply heap_evolves_alter, same_static_activation].
  - destruct (caller s) as [|f|f]; try apply heap_evolves_refl.
    + destruct (settle_frame (CallDeactivateFiber f) (DeactivateFiber_step (D29 f) s))
        as (-> & _).
      pose proof (IsFiberRunning_state f s) as E. simpl.
      destruct (IsFiberRunning f s) as [s' r]. simpl in E. subst s'.
      repeat case_match; apply heap_evolves_refl.
    + destruct (settle_frame (CallDeactivateFiber f) (DeactivateFiber_step (D31 f) s))
        as (-> & _).
      simpl. case_match; simpl;
        first [apply heap_evolves_refl
              |apply heap_evolves_alter, same_static_activation].
  - destruct (threads s !! k) as [pc|]; [|apply heap_evolves_refl].
    pose proof (RunFiberLoop_step_heap pc s) as H.
    by destruct (RunFiberLoop_step pc s) as [s' pc'].
Qed.

Lemma heap_evolves_forward h h' r o :
  heap_evolves h h' → h !! r = Some o →
  ∃ o', h' !! r = Some o' ∧ same_static o o'.
Proof.
  intros [Hlen Hev] Hr. pose proof (lookup_lt_Some _ _ _ Hr) as Hlt.
  destruct (lookup_lt_is_Some_2 h' r) as [o' Ho']; [lia|].
  destruct (Hev r o' Ho' Hlt) as (o0 & Ho0 & Hst). simplify_eq. eauto.
Qed.

(** ** References are never dangling *)

Lemma named_evolves h h' key r :
  heap_evolves h h' → named h key r → named h' key r.
Proof.
  intros Hev (o & Ho & Hn).
  destruct (heap_evolves_forward _ _ _ _ Hev Ho) as (o' & Ho' & Hn' & _).
  exists o'. split; [done|congruence].
Qed.

Lemma step_LoopStep (k : nat) (pc : LoopPC) (s : State) :
  threads s !! k = Some pc →
  step (LoopStep k) s =
    with_threads (<[k := (RunFiberLoop_step pc s).2]> (threads s))
      (RunFiberLoop_step pc s).1.
Proof.
  intros Hk. unfold step. rewrite Hk.
  destruct (RunFiberLoop_step_frame pc s) as (_ & _ & Hth & _).
  destruct (RunFiberLoop_step pc s) as [s' pc']. simpl in *. by rewrite Hth.
Qed.

Lemma RunFiberLoop_step_frame_of (pc : LoopPC) (s : State) (fr' : Frame) :
  frame_of (RunFiberLoop_step pc s).2 = Some fr' →
  frame_of pc = Some fr' ∨
  ∃ pos size key r, pc = L40 pos size ∧ fiber_list s !! pos = Some (key, r) ∧
                    fr' = mkFrame pos size key r.
Proof.
  destruct pc; simpl; repeat case_match; simpl; intros; simplify_eq;
    first [by left | right; eauto 10].
Qed.

(** The registry after a step: as before, or one name bound to a new
    descriptor. *)
Lemma step_fiber_list (a : Action) (s : State) :
  fiber_list (step a s) = fiber_list s ∨
  ∃ f x i act, a = Call (CallRegisterFiber f x i act) ∧ caller s = Ready ∧
    fiber_list (step a s) = dict_set (__name__ f) (length (heap s)) (fiber_list s) ∧
    heap (step a s) = heap s ++ [mkFiberInfo (__name__ f) f x i act false].
Proof.
  destruct a as [d|op| |k]; unfold step.
  - by left.
  - destruct (caller s) eqn:Hc; [|by left..].
    destruct (settle_frame op (api op s)) as (-> & -> & _).
    destruct op; simpl; unfold ActivateFiber, IsFiberRunning;
      repeat case_match; simplify_eq/=; first [by left | right; eauto 10].
  - destruct (caller s) as [|f|f]; [by left| |].
    + destruct (settle_frame (CallDeactivateFiber f) (DeactivateFiber_step (D29 f) s))
        as (_ & -> & _).
      left. by destruct (caller_step_frame (D29 f) s) as (-> & _).
    + destruct (settle_frame (CallDeactivateFiber f) (DeactivateFiber_step (D31 f) s))
        as (_ & -> & _).
      left. by destruct (caller_step_frame (D31 f) s) as (-> & _).
  - destruct (threads s !! k) as [pc|]; [|by left].
    destruct (RunFiberLoop_step_frame pc s) as (Hfl & _).
    destruct (RunFiberLoop_step pc s) as [s' pc']. by left.
Qed.

(** The threads after a step: as before, or a new one at line 38, or the one
    that executed a statement. *)
Lemma step_threads (a : Action) (s : State) (j : nat) (pc' : LoopPC) :
  threads (step a s) !! j = Some pc' →
  threads s !! j = Some pc' ∨
  (pc' = L38 ∧ is_start a = true) ∨
  ∃ pc, a = LoopStep j ∧ threads s !! j = Some pc ∧ pc' = (RunFiberLoop_step pc s).2.
Proof.
  destruct a as [d|op| |k].
  - by left.
  - unfold step. destruct (caller s) eqn:Hc; [|by left..].
    destruct (settle_frame op (api op s)) as (_ & _ & _ & _ & _ & -> & _).
    destruct op; simpl; unfold ActivateFiber, IsFiberRunning;
      repeat case_match; simplify_eq/=; try by left.
    all: intros [?|[_ [_ <-]%list_lookup_singleton_Some]]%lookup_app_Some;
      [by left|by right; left].
  - unfold step. destruct (caller s) as [|f|f]; [by left| |].
    + destruct (settle_frame (CallDeactivateFiber f) (DeactivateFiber_step (D29 f) s))
        as (_ & _ & _ & _ & _ & -> & _).
      destruct (caller_step_frame (D29 f) s) as (_ & _ & -> & _). by left.
    + destruct (settle_frame (CallDeactivateFiber f) (DeactivateFiber_step (D31 f) s))
        as (_ & _ & _ & _ & _ & -> & _).
      destruct (caller_step_frame (D31 f) s) as (_ & _ & -> & _). by left.
  - destruct (threads s !! k) as [pc|] eqn:Hk.
    + rewrite (step_LoopStep k pc s Hk). simpl. intros Hj.
      destruct (decide (k = j)) as [->|Hne].
      * rewrite list_lookup_insert_eq in Hj by (by eapply lookup_lt_Some).
        injection Hj as <-. right; right. eauto.
      * rewrite list_lookup_insert_ne in Hj by done. by left.
    + unfold step. rewrite Hk. by left.
Qed.

Lemma wf_init (t0 : Z) : wf (init t0).
Proof. split; [by intros key r H%elem_of_nil|by intros k pc fr H]. Qed.

Lemma wf_step (a : Action) (s : State) : wf s → wf (step a s).
Proof.
  intros [Hd Ht]. pose proof (step_heap a s) as Hev. split.
  - intros key r Hin. destruct (step_fiber_list a s) as [E|(f & x & i & act & _ & _ & E & Eh)].
    + rewrite E in Hin. eauto using named_evolves.
    + rewrite E in Hin. apply dict_set_elem in Hin as [[= -> ->]|Hin].
      * rewrite Eh. exists (mkFiberInfo (__name__ f) f x i act false).
        split; [|done]. rewrite lookup_app_r by lia. by rewrite Nat.sub_diag.
      * eauto using named_evolves.
  - intros j pc' fr Hj Hfr.
    destruct (step_threads a s j pc' Hj) as [Hold|[[-> _]|(pc & -> & Hpc & ->)]].
    + eauto using named_evolves.
    + done.
    + apply RunFiberLoop_step_frame_of in Hfr
        as [Hfr|(pos & size & key & r & -> & Hpos & ->)].
      * eauto using named_evolves.
      * simpl. eapply named_evolves; [done|]. apply Hd.
        by eapply list_elem_of_lookup_2.
Qed.

Lemma wf_exec (acts : list Action) (s : State) : wf s → wf (exec acts s).
Proof. apply exec_invariant_always, wf_step. Qed.

(** ** What a step does to the trace and to the enabled flags *)

(** The trace grows only at line 53, by the call of the fiber of the
    iteration. *)
Lemma step_trace (a : Action) (s : State) :
  trace (step a s) = trace s ∨
  ∃ k fr stamp o, a = LoopStep k ∧ threads s !! k = Some (L53 fr stamp) ∧
    heap s !! fr_info fr = Some o ∧
    trace (step a s) =
      mkEvent (fr_name fr) (fr_info fr) (args o) (interval o) stamp :: trace s.
Proof.
  destruct a as [d|op| |k]; unfold step.
  - by left.
  - destruct (caller s) eqn:Hc; [|by left..].
    destruct (settle_frame op (api op s)) as (_ & _ & _ & _ & _ & _ & ->).
    destruct op; simpl; unfold ActivateFiber, IsFiberRunning;
      repeat case_match; simplify_eq/=; by left.
  - destruct (caller s) as [|f|f]; [by left| |].
    + destruct (settle_frame (CallDeactivateFiber f) (DeactivateFiber_step (D29 f) s))
        as (_ & _ & _ & _ & _ & _ & ->).
      left. by destruct (caller_step_frame (D29 f) s) as (_ & _ & _ & -> & _).
    + destruct (settle_frame (CallDeactivateFiber f) (DeactivateFiber_step (D31 f) s))
        as (_ & _ & _ & _ & _ & _ & ->).
      left. by destruct (caller_step_frame (D31 f) s) as (_ & _ & _ & -> & _).
  - destruct (threads s !! k) as [pc|] eqn:Hk; [|by left].
    destruct pc; simpl; repeat case_match; simplify_eq/=;
      first [by left | right; eauto 10].
Qed.

(** A descriptor that is enabled after a step was enabled before, or the
    step is [ActivateFiber] on its name, or it registers it enabled. *)
Lemma step_activation (a : Action) (s : State) (r : nat) (o' : FiberInfo) :
  wf s →
  heap (step a s) !! r = Some o' → activation_status o' = true →
  (∃ o, heap s !! r = Some o ∧ activation_status o = true ∧
        fiber_name o = fiber_name o') ∨
  (∃ f, a = Call (CallActivateFiber f) ∧ fiber_name o' = __name__ f) ∨
  (∃ f x i, a = Call (CallRegisterFiber f x i true) ∧ fiber_name o' = __name__ f).
Proof.
  intros [Hd _]. destruct a as [d|op| |k]; unfold step.
  - left. eauto.
  - destruct (caller s) eqn:Hc; [|left; eauto..].
    destruct (settle_frame op (api op s)) as (-> & _).
    destruct op; simpl; unfold ActivateFiber, IsFiberRunning;
      repeat case_match; simplify_eq/=; try (left; by eauto).
    + intros [?|[_ [_ <-]%list_lookup_singleton_Some]]%lookup_app_Some; simpl.
      * left; eauto.
      * intros ->. right; right. eauto.
    + intros Hr Hact. destruct (decide (n = r)) as [->|Hne].
      * rewrite list_lookup_alter_eq in Hr.
        destruct (heap s !! r) as [o|] eqn:Ho; simplify_eq/=.
        right; left. exists f. split; [done|].
        destruct (Hd (__name__ f) r) as (o0 & Ho0 & Hn); [by apply dict_get_elem|].
        by simplify_eq.
      * rewrite list_lookup_alter_ne in Hr by done. left; eauto.
  - destruct (caller s) as [|f|f]; [left; eauto| |].
    + destruct (settle_frame (CallDeactivateFiber f) (DeactivateFiber_step (D29 f) s))
        as (-> & _).
      pose proof (IsFiberRunning_state f s) as E. simpl.
      destruct (IsFiberRunning f s) as [s' x]. simpl in E. subst s'.
      repeat case_match; left; eauto.
    + destruct (settle_frame (CallDeactivateFiber f) (DeactivateFiber_step (D31 f) s))
        as (-> & _).
      simpl. case_match; simpl; [|left; by eauto].
      intros Hr Hact. destruct (decide (n = r)) as [->|Hne].
      * rewrite list_lookup_alter_eq in Hr.
        destruct (heap s !! r) as [o|] eqn:Ho; simplify_eq/=.
      * rewrite list_lookup_alter_ne in Hr by done. left; eauto.
  - destruct (threads s !! k) as [pc|] eqn:Hk; [|left; by eauto].
    intros Hr Hact. left.
    assert (Halt : ∀ b x, alter (set_running_status b) x (heap s) !! r = Some o' →
              ∃ o, heap s !! r = Some o ∧ activation_status o = true ∧
                   fiber_name o = fiber_name o').
    { intros b x Hx. destruct (decide (x = r)) as [->|Hne].
      - rewrite list_lookup_alter_eq in Hx.
        destruct (heap s !! r) as [o|] eqn:Ho; simplify_eq/=. eauto.
      - rewrite list_lookup_alter_ne in Hx by done. eauto. }
    destruct pc; simpl in Hr; repeat case_match; simplify_eq/=; eauto.
Qed.

(** ** A disabled fiber *)

Lemma forallb_lookup {A} (p : A → bool) (l : list A) :
  forallb p l = true ↔ ∀ i x, l !! i = Some x → p x = true.
Proof.
  rewrite List.forallb_forall. split.
  - intros H i x Hi. apply H, list_elem_of_In, list_elem_of_lookup. eauto.
  - intros H x [i Hi]%list_elem_of_In%list_elem_of_lookup. eauto.
Qed.

Lemma disabled_spec n s :
  disabled n s = true ↔
  ∀ r o, heap s !! r = Some o → fiber_name o = n → activation_status o = false.
Proof.
  unfold disabled. rewrite forallb_lookup. split.
  - intros H r o Hr Hn. specialize (H r o Hr). simpl in H.
    rewrite bool_decide_eq_true_2 in H by done. by destruct (activation_status o).
  - intros H r o Hr. case_bool_decide; [|done]. by rewrite (H r o).
Qed.

Lemma not_selected_spec n s :
  not_selected n s = true ↔
  ∀ k pc fr, threads s !! k = Some pc → selected pc = Some fr → fr_name fr ≠ n.
Proof.
  unfold not_selected. rewrite forallb_lookup. split.
  - intros H k pc fr Hk Hsel. specialize (H k pc Hk). simpl in H.
    rewrite Hsel in H. by case_bool_decide.
  - intros H k pc Hk. destruct (selected pc) as [fr|] eqn:Hsel; [|done].
    rewrite bool_decide_eq_false_2; [done|eauto].
Qed.

Lemma RunFiberLoop_step_selected (pc : LoopPC) (s : State) (fr : Frame) :
  selected (RunFiberLoop_step pc s).2 = Some fr →
  selected pc = Some fr ∨
  ∃ o, pc = L43 fr ∧ heap s !! fr_info fr = Some o ∧ activation_status o = true.
Proof.
  destruct pc; simpl; repeat case_match; simpl; intros; simplify_eq;
    first [by left | right; eauto].
Qed.

Lemma disabled_step (n : string) (a : Action) (s : State) :
  wf s → disabled n s = true → not_selected n s = true →
  keeps_disabled n a = true →
  disabled n (step a s) = true ∧ not_selected n (step a s) = true ∧
  ∃ new, trace (step a s) = new ++ trace s ∧ Forall (λ e, ev_name e ≠ n) new.
Proof.
  rewrite !disabled_spec, !not_selected_spec. intros Hwf Hd Hs Ha.
  split; [|split].
  - intros r o' Hr Hn. destruct (activation_status o') eqn:Hact; [|done].
    destruct (step_activation a s r o' Hwf Hr Hact)
      as [(o & Ho & Hacto & Hno)|[(f & -> & Hf)|(f & x & i & -> & Hf)]].
    + rewrite (Hd r o Ho) in Hacto; [done|congruence].
    + simpl in Ha. rewrite bool_decide_eq_true_2 in Ha; [done|congruence].
    + simpl in Ha. rewrite bool_decide_eq_true_2 in Ha; [done|congruence].
  - intros j pc' fr Hj Hsel.
    destruct (step_threads a s j pc' Hj) as [Hold|[[-> _]|(pc & -> & Hpc & ->)]].
    + eauto.
    + done.
    + apply RunFiberLoop_step_selected in Hsel as [Hsel|(o & -> & Ho & Hact)]; [by eauto|].
      destruct Hwf as [_ Ht]. destruct (Ht j (L43 fr) fr Hpc eq_refl) as (o0 & Ho0 & Hn).
      rewrite Ho in Ho0. injection Ho0 as <-.
      intros Hn'. rewrite (Hd _ _ Ho) in Hact; [done|congruence].
  - destruct (step_trace a s) as [->|(k & fr & stamp & o & -> & Hk & Ho & ->)].
    + by exists [].
    + eexists [_]. split; [done|]. constructor; [simpl|done]. by eapply Hs.
Qed.

Lemma registered_disabled_spec n s :
  registered_disabled n s = true ↔
  ∀ pos r o, fiber_list s !! pos = Some (n, r) → heap s !! r = Some o →
             activation_status o = false.
Proof.
  unfold registered_disabled. rewrite forallb_lookup. split.
  - intros H pos r o Hpos Ho. specialize (H pos (n, r) Hpos). simpl in H.
    rewrite bool_decide_eq_true_2, Ho in H by done. simpl in H.
    by destruct (activation_status o).
  - intros H pos [key r] Hpos. simpl. case_bool_decide as Hk; [|done]. subst key.
    simpl. destruct (heap s !! r) as [o|] eqn:Ho; [|done].
    by rewrite (H pos r o).
Qed.

Lemma pending_disabled_spec n s :
  pending_disabled n s = true ↔
  ∀ k pc fr o, threads s !! k = Some pc → pc = L41 fr ∨ pc = L43 fr →
               fr_name fr = n → heap s !! fr_info fr = Some o →
               activation_status o = false.
Proof.
  unfold pending_disabled. rewrite forallb_lookup. split.
  - intros H k pc fr o Hk Hpc Hn Ho. specialize (H k pc Hk).
    destruct Hpc as [-> | ->]; simpl in H;
      rewrite bool_decide_eq_true_2, Ho in H by done; simpl in H;
      by destruct (activation_status o).
  - intros H k pc Hk. destruct pc; try done.
    all: case_bool_decide as Hn; [simpl|done].
    all: destruct (heap s !! fr_info fr) as [o|] eqn:Ho; [|done].
    all: erewrite (H k _ fr o); eauto.
Qed.

(** A thread arrives at line 41 with the item the registry has at its
    position, and at line 43 from line 41. *)
Lemma RunFiberLoop_step_fetch (pc : LoopPC) (s : State) (fr : Frame) :
  (RunFiberLoop_step pc s).2 = L41 fr ∨ (RunFiberLoop_step pc s).2 = L43 fr →
  (RunFiberLoop_step pc s).1 = s ∧
  ((∃ pos, fiber_list s !! pos = Some (fr_name fr, fr_info fr)) ∨ pc = L41 fr).
Proof.
  destruct pc; simpl; repeat case_match; simpl; intros [?|?]; simplify_eq/=;
    (split; [done|]); first [by right | left; eauto].
Qed.

Lemma quiet_step (n : string) (a : Action) (s : State) :
  wf s → registered_disabled n s = true → pending_disabled n s = true →
  not_selected n s = true → keeps_disabled n a = true →
  registered_disabled n (step a s) = true ∧
  pending_disabled n (step a s) = true ∧
  not_selected n (step a s) = true ∧
  ∃ new, trace (step a s) = new ++ trace s ∧ Forall (λ e, ev_name e ≠ n) new.
Proof.
  rewrite !registered_disabled_spec, !pending_disabled_spec, !not_selected_spec.
  intros Hwf Hreg Hpend Hsel Ha.
  pose proof (wf_step a s Hwf) as [Hd' Ht'].
  assert (Hwas : ∀ r o', heap (step a s) !! r = Some o' →
            activation_status o' = true → fiber_name o' = n →
            ∃ o, heap s !! r = Some o ∧ activation_status o = true).
  { intros r o' Hr Hact Hn.
    destruct (step_activation a s r o' Hwf Hr Hact)
      as [(o & Ho & Hacto & _)|[(f & -> & Hf)|(f & x & i & -> & Hf)]]; [by eauto| |].
    - simpl in Ha. rewrite bool_decide_eq_true_2 in Ha; [done|congruence].
    - simpl in Ha. rewrite bool_decide_eq_true_2 in Ha; [done|congruence]. }
  assert (Hreg' : ∀ r o, (n, r) ∈ fiber_list s → heap s !! r = Some o →
            activation_status o = false).
  { intros r o [pos Hpos]%list_elem_of_lookup Ho. eauto. }
  split; [|split; [|split]].
  - intros pos r o' Hpos Ho'. destruct (activation_status o') eqn:Hact; [|done].
    assert (Hin : (n, r) ∈ fiber_list (step a s)) by (by eapply list_elem_of_lookup_2).
    destruct (Hd' n r Hin) as (o1 & Ho1 & Hn1).
    assert (o1 = o') as -> by congruence.
    destruct (Hwas r o' Ho' Hact Hn1) as (o & Ho & Hacto).
    destruct (step_fiber_list a s) as [E|(f & x & i & act & _ & _ & E & _)];
      rewrite E in Hin.
    + rewrite (Hreg' r o Hin Ho) in Hacto. done.
    + apply dict_set_elem in Hin as [[= _ ->]|Hin].
      * apply lookup_lt_Some in Ho. lia.
      * rewrite (Hreg' r o Hin Ho) in Hacto. done.
  - intros j pc' fr o' Hj Hpc' Hn Ho'.
    destruct (activation_status o') eqn:Hact; [|done].
    assert (Hfr : frame_of pc' = Some fr) by (by destruct Hpc' as [-> | ->]).
    destruct (Ht' j pc' fr Hj Hfr) as (o1 & Ho1 & Hn1).
    assert (o1 = o') as -> by congruence.
    destruct (Hwas _ o' Ho' Hact ltac:(congruence)) as (o & Ho & Hacto).
    destruct (step_threads a s j pc' Hj) as [Hold|[[-> _]|(pc & -> & Hpc & ->)]].
    + rewrite (Hpend j pc' fr o Hold Hpc' Hn Ho) in Hacto. done.
    + by destruct Hpc'.
    + destruct (RunFiberLoop_step_fetch pc s fr Hpc') as [_ [[pos Hpos]| ->]].
      * rewrite Hn in Hpos. rewrite (Hreg pos _ o Hpos Ho) in Hacto. done.
      * rewrite (Hpend j (L41 fr) fr o Hpc (or_introl eq_refl) Hn Ho) in Hacto. done.
  - intros j pc' fr Hj Hsel'.
    destruct (step_threads a s j pc' Hj) as [Hold|[[-> _]|(pc & -> & Hpc & ->)]].
    + eauto.
    + done.
    + apply RunFiberLoop_step_selected in Hsel' as [Hsel'|(o & -> & Ho & Hact)];
        [by eauto|].
      intros Hn. rewrite (Hpend j (L43 fr) fr o Hpc (or_intror eq_refl) Hn Ho) in Hact.
      done.
  - destruct (step_trace a s) as [->|(k & fr & stamp & o & -> & Hk & Ho & ->)].
    + by exists [].
    + eexists [_]. split; [done|]. constructor; [simpl|done]. by eapply Hsel.
Qed.

(** C7 fails as stated, in two ways.  The loop has passed the test of line
    43 when [DeactivateFiber] clears the enabled flag and returns: the loop
    goes on to line 53 and calls the fiber, whose flag is False.  And the
    loop has fetched the item of the name when the name is registered again,
    disabled: the loop tests the flag of the descriptor it holds, which is
    True, and calls the fiber, while the descriptor of the registry is
    disabled and no thread was past line 43. *)
Lemma disabled_fiber_called_by_late_loop :
  (let s := exec deactivate_late (init 0) in
   let s' := exec (replicate 4 (LoopStep 0)) s in
   caller s = Ready ∧
   (snd <$> returned s) !! 0 = Some (Return PyNone) ∧
   activation_status <$> heap s = [false] ∧ trace s = [] ∧
   activation_status <$> heap s' = [false] ∧
   trace s' = [mkEvent "T" 0 None None 0]) ∧
  (let s := exec reregister_late (init 0) in
   let s' := exec (replicate 6 (LoopStep 0)) s in
   fiber_list s = [("T", 1)] ∧
   activation_status <$> heap s = [true; false] ∧
   registered_disabled "T" s = true ∧ not_selected "T" s = true ∧
   trace s = [] ∧
   registered_disabled "T" s' = true ∧
   trace s' = [mkEvent "T" 0 None None 0]).
Proof. vm_compute. repeat split. Qed.

(** C7, as the code has it: a fiber whose enabled flag is False is not
    called by the loop, unless a loop thread already has it in hand.  From
    any state the scheduler can reach in which the descriptor the registry
    has for the name is disabled, no thread that has fetched an item of the
    name and not yet tested its flag (lines 41 and 43) holds an enabled
    descriptor, and no thread is past the test of line 43 for the name, and
    along any schedule that does not enable the name (whatever the intervals,
    the arguments, and the times the clock shows), every call that is added
    to the trace is a call of another name. *)
Theorem disabled_fiber_not_called (n : string) (t0 : Z) (pre acts : list Action) :
  let s := exec pre (init t0) in
  registered_disabled n s = true →
  pending_disabled n s = true →
  not_selected n s = true →
  forallb (keeps_disabled n) acts = true →
  ∃ new, trace (exec acts s) = new ++ trace s ∧ Forall (λ e, ev_name e ≠ n) new.
Proof.
  intros s. assert (Hwf : wf s) by apply wf_exec, wf_init. clearbody s.
  revert s Hwf. induction acts as [|a acts IH]; intros s Hwf Hr Hp Hs Hacts.
  - by exists [].
  - simpl in Hacts. apply andb_prop in Hacts as [Ha Hacts].
    destruct (quiet_step n a s Hwf Hr Hp Hs Ha) as (Hr' & Hp' & Hs' & new1 & E1 & Hnew1).
    destruct (IH (step a s) (wf_step a s Hwf) Hr' Hp' Hs' Hacts) as (new2 & E2 & Hnew2).
    exists (new2 ++ new1). split.
    + cbn [exec]. by rewrite E2, E1, app_assoc.
    + by apply Forall_app.
Qed.

(** The name was registered enabled and then again, disabled, with interval
    0 and an argument, and 100 time units pass: thirty statements of the
    loop call only the other fiber. *)
Lemma disabled_fiber_not_called_witness :
  let s := exec reregistered_schedule (init 0) in
  ∃ new,
    trace (exec (Tick 100 :: replicate 30 (LoopStep 0) ++ [Call CallStop]) s)
      = new ++ trace s ∧
    Forall (λ e, ev_name e ≠ "T") new.
Proof.
  apply (disabled_fiber_not_called "T" 0 reregistered_schedule
           (Tick 100 :: replicate 30 (LoopStep 0) ++ [Call CallStop]));
    vm_compute; reflexivity.
Defined.

(** ** The running flag *)

Lemma RunFiberLoop_step_running (pc : LoopPC) (s : State) :
  (∀ fr, frame_of pc = Some fr → is_Some (heap s !! fr_info fr)) →
  let s' := (RunFiberLoop_step pc s).1 in
  let pc' := (RunFiberLoop_step pc s).2 in
  (heap s' = heap s ∧ in_call pc' = in_call pc ∧ died_in pc' = died_in pc) ∨
  (∃ r, heap s' = heap s ∧ in_call pc = Some r ∧ died_in pc = None ∧
        in_call pc' = None ∧ died_in pc' = Some r) ∨
  (∃ fr stamp, pc = L52 fr stamp ∧ pc' = L53 fr stamp ∧
     heap s' = alter (set_running_status true) (fr_info fr) (heap s)) ∨
  (∃ fr, pc = L57 fr ∧ pc' = L58 fr ∧
     heap s' = alter (set_running_status false) (fr_info fr) (heap s)).
Proof.
  intros Hfr.
  destruct pc; simpl; repeat case_match; simpl;
    try (destruct (Hfr _ eq_refl) as [? ?]; congruence);
    first [by left | right; left; by eauto 10
          | right; right; left; by eauto | right; right; right; by eauto].
Qed.

(** What an action of the caller or of the clock does to the running flags
    and to the threads. *)
Lemma step_other_running (a : Action) (s : State) (r : nat) (o' : FiberInfo) :
  (∀ k, a ≠ LoopStep k) →
  heap (step a s) !! r = Some o' →
  (∃ o, heap s !! r = Some o ∧ running_status o' = running_status o) ∨
  (heap s !! r = None ∧ running_status o' = false).
Proof.
  intros Ha.
  assert (Halt : ∀ b x, alter (set_activation_status b) x (heap s) !! r = Some o' →
            ∃ o, heap s !! r = Some o ∧ running_status o' = running_status o).
  { intros b x Hx. destruct (decide (x = r)) as [->|Hne].
    - rewrite list_lookup_alter_eq in Hx.
      destruct (heap s !! r) as [o|] eqn:Ho; simplify_eq/=. eauto.
    - rewrite list_lookup_alter_ne in Hx by done. eauto. }
  destruct a as [d|op| |k]; unfold step.
  - left; eauto.
  - destruct (caller s) eqn:Hc; [|left; eauto..].
    destruct (settle_frame op (api op s)) as (-> & _).
    destruct op; simpl; unfold ActivateFiber, IsFiberRunning;
      repeat case_match; simplify_eq/=; try (left; by eauto).
    intros [?|[Hlen [_ <-]%list_lookup_singleton_Some]]%lookup_app_Some; simpl.
    + left; eauto.
    + right. split; [|done]. by apply lookup_ge_None_2.
  - destruct (caller s) as [|f|f]; [left; eauto| |].
    + destruct (settle_frame (CallDeactivateFiber f) (DeactivateFiber_step (D29 f) s))
        as (-> & _).
      pose proof (IsFiberRunning_state f s) as E. simpl.
      destruct (IsFiberRunning f s) as [s' x]. simpl in E. subst s'.
      repeat case_match; left; eauto.
    + destruct (settle_frame (CallDeactivateFiber f) (DeactivateFiber_step (D31 f) s))
        as (-> & _).
      simpl. case_match; simpl; left; eauto.
  - by destruct (Ha k).
Qed.

Lemma step_other_threads (a : Action) (s : State) :
  (∀ k, a ≠ LoopStep k) →
  (is_start a = false ∧ threads (step a s) = threads s) ∨
  (is_start a = true ∧
   (threads (step a s) = threads s ∨ threads (step a s) = threads s ++ [L38])).
Proof.
  intros Ha. destruct a as [d|op| |k]; unfold step.
  - by left.
  - destruct (caller s) eqn:Hc.
    2,3: destruct (is_start (Call op)); [right|left]; by eauto.
    destruct (settle_frame op (api op s)) as (_ & _ & _ & _ & _ & -> & _).
    destruct op; simpl; unfold ActivateFiber, IsFiberRunning;
      repeat case_match; simplify_eq/=; first [by left | right; by eauto].
  - left. split; [done|]. destruct (caller s) as [|f|f]; [done| |].
    + destruct (settle_frame (CallDeactivateFiber f) (DeactivateFiber_step (D29 f) s))
        as (_ & _ & _ & _ & _ & -> & _).
      by destruct (caller_step_frame (D29 f) s) as (_ & _ & -> & _).
    + destruct (settle_frame (CallDeactivateFiber f) (DeactivateFiber_step (D31 f) s))
        as (_ & _ & _ & _ & _ & -> & _).
      by destruct (caller_step_frame (D31 f) s) as (_ & _ & -> & _).
  - by destruct (Ha k).
Qed.

Lemma running_inv_init (t0 : Z) : running_inv (init t0).
Proof. split; [apply wf_init|]. split; [simpl; lia|]. by intros r o H. Qed.

Lemma running_inv_loop_step (k : nat) (s : State) :
  running_inv s → running_inv (step (LoopStep k) s).
Proof.
  intros (Hwf & Hlen & Hrun). split; [by apply wf_step|].
  destruct (threads s !! k) as [pc|] eqn:Hk;
    [|unfold step; rewrite Hk; by split].
  assert (k = 0) as -> by (apply lookup_lt_Some in Hk; lia).
  rewrite (step_LoopStep 0 pc s Hk). simpl.
  split; [by rewrite length_insert|].
  assert (Hpc : ∀ r o, heap s !! r = Some o →
            (running_status o = true ↔ in_call pc = Some r ∨ died_in pc = Some r)).
  { intros r o Ho. rewrite (Hrun r o Ho). split; [|by eauto].
    intros (pc0 & Hpc0 & H). by simplify_eq. }
  assert (Hfr : ∀ fr, frame_of pc = Some fr → is_Some (heap s !! fr_info fr)).
  { intros fr Hfr. destruct Hwf as [_ Ht].
    destruct (Ht 0 pc fr Hk Hfr) as (o & Ho & _). eauto. }
  intros r o' Ho'.
  rewrite list_lookup_insert_eq by (by eapply lookup_lt_Some).
  transitivity (in_call (RunFiberLoop_step pc s).2 = Some r ∨
                died_in (RunFiberLoop_step pc s).2 = Some r).
  2: { split; [by eauto|]. intros (pc0 & Hpc0 & H). by simplify_eq. }
  destruct (RunFiberLoop_step_running pc s Hfr)
    as [(Eh & Ei & Ed)|[(r0 & Eh & Ei & Ed & Ei' & Ed')
       |[(fr & stamp & -> & Epc & Eh)|(fr & -> & Epc & Eh)]]].
  - rewrite Eh in Ho'. rewrite Ei, Ed. by apply Hpc.
  - rewrite Eh in Ho'. rewrite Ei', Ed'. rewrite (Hpc r o' Ho'), Ei, Ed. intuition (try congruence; try done).
  - rewrite Eh in Ho'. rewrite Epc. simpl.
    destruct (decide (fr_info fr = r)) as [<-|Hne].
    + rewrite list_lookup_alter_eq in Ho'.
      destruct (heap s !! fr_info fr) as [o|]; simplify_eq/=. intuition (try congruence; try done).
    + rewrite list_lookup_alter_ne in Ho' by done.
      rewrite (Hpc r o' Ho'). simpl. intuition (try congruence; try done).
  - rewrite Eh in Ho'. rewrite Epc. simpl.
    destruct (decide (fr_info fr = r)) as [<-|Hne].
    + rewrite list_lookup_alter_eq in Ho'.
      destruct (heap s !! fr_info fr) as [o|]; simplify_eq/=. intuition (try congruence; try done).
    + rewrite list_lookup_alter_ne in Ho' by done.
      rewrite (Hpc r o' Ho'). simpl. intuition (try congruence; try done).
Qed.

Lemma running_inv_step (a : Action) (s : State) :
  first_start a s = true → running_inv s → running_inv (step a s).
Proof.
  intros Ha Hinv.
  assert (Hcase : (∃ k, a = LoopStep k) ∨ ∀ k, a ≠ LoopStep k)
    by (destruct a; eauto).
  destruct Hcase as [[k ->]|Hno']; [by apply running_inv_loop_step|].
  destruct Hinv as (Hwf & Hlen & Hrun).
  split; [by apply wf_step|].
  assert (Hth : threads (step a s) = threads s ∨
                (threads s = [] ∧ threads (step a s) = [L38])).
  { destruct (step_other_threads a s Hno') as [[_ E]|[Hst [E|E]]]; [by left|by left|].
    unfold first_start in Ha. rewrite Hst in Ha.
    destruct (threads s); [|done]. by right. }
  split; [destruct Hth as [->|[_ ->]]; [done|simpl; lia]|].
  intros r o' Ho'.
  destruct (step_other_running a s r o' Hno' Ho') as [(o & Ho & ->)|[Hnone ->]].
  - rewrite (Hrun r o Ho). destruct Hth as [->|[E ->]]; [done|].
    rewrite E. simpl. split; intros (pc & Hpc & H); simplify_eq/=; by destruct H.
  - split; [done|]. intros (pc & Hpc & H).
    assert (Hpc0 : threads s !! 0 = Some pc).
    { destruct Hth as [E|[_ E]]; rewrite E in Hpc; [done|].
      simpl in Hpc. simplify_eq. by destruct H. }
    destruct Hwf as [_ Ht].
    assert (∃ fr, frame_of pc = Some fr ∧ fr_info fr = r) as (fr & Hfr & <-).
    { destruct H as [H|H]; destruct pc; simplify_eq/=; eauto.
      destruct during; simplify_eq/=; eauto. }
    destruct (Ht 0 pc fr Hpc0 Hfr) as (o & Ho & _). congruence.
Qed.

Lemma IsFiberRunning_registered (f : callable) (s : State) (x : option (list Z))
    (i : option Z) (act : bool) :
  let s' := (RegisterFiber f x i act s).1 in
  IsFiberRunning f s' = (s', Return (PyBool false)).
Proof.
  unfold IsFiberRunning. simpl. rewrite dict_get_set_eq.
  rewrite lookup_app_r by lia. by rewrite Nat.sub_diag.
Qed.

(** C2, as the code has it.  [IsFiberRunning] is False right after
    [RegisterFiber].  With one loop (one call of [Run] or [Resume]), in every
    state the scheduler can reach, [IsFiberRunning] of a registered name is
    True exactly when the loop is in the call of the descriptor of that name,
    from the assignment of line 52 until the assignment of line 57 has been
    executed, or when the loop died in that call because the fiber raised: so
    the flag is False until the loop selects the fiber, False again once a
    call has returned, and it stays True after a call that raised. *)
Theorem running_status_brackets_call :
  (∀ f x i act s,
     let s' := (RegisterFiber f x i act s).1 in
     IsFiberRunning f s' = (s', Return (PyBool false))) ∧
  (∀ t0 acts,
     admissible first_start acts (init t0) = true →
     let s := exec acts (init t0) in
     ∀ f r, dict_get (__name__ f) (fiber_list s) = Some r →
       ∃ b, IsFiberRunning f s = (s, Return (PyBool b)) ∧
            (b = true ↔
             ∃ pc, threads s = [pc] ∧ (in_call pc = Some r ∨ died_in pc = Some r))).
Proof.
  split; [intros; apply IsFiberRunning_registered|].
  intros t0 acts Hadm s f r Hget.
  assert (Hinv : running_inv s).
  { apply (exec_invariant first_start running_inv running_inv_step);
      [done|apply running_inv_init]. }
  destruct Hinv as ([Hd _] & Hlen & Hrun).
  destruct (Hd (__name__ f) r) as (o & Ho & _); [by apply dict_get_elem|].
  exists (running_status o). unfold IsFiberRunning. rewrite Hget, Ho.
  split; [done|]. rewrite (Hrun r o Ho). split.
  - intros (pc & Hpc & H). exists pc. split; [|done].
    destruct (threads s) as [|pc0 [|pc1 ts]]; simpl in *; [done| |lia]. by simplify_eq.
  - intros (pc & Hpc & H). exists pc. by rewrite Hpc.
Qed.

(** The loop is in the call of the fiber: its running flag reads True. *)
Lemma running_status_brackets_call_witness :
  let U := fiber_ok "U" in
  let acts := [Call (CallRegisterFiber U None None true); Call CallRun; LoopStep 0]
              ++ into_call 0 in
  let s := exec acts (init 0) in
  ∃ b, IsFiberRunning U s = (s, Return (PyBool b)) ∧
       (b = true ↔
        ∃ pc, threads s = [pc] ∧ (in_call pc = Some 0 ∨ died_in pc = Some 0)).
Proof.
  apply (proj2 running_status_brackets_call 0%Z
    ([Call (CallRegisterFiber (fiber_ok "U") None None true); Call CallRun; LoopStep 0]
     ++ into_call 0)); vm_compute; reflexivity.
Defined.

Lemma exec_fixed (a : Action) (s : State) (n : nat) :
  step a s = s → exec (replicate n a) s = s.
Proof.
  intros E. induction n as [|n IH]; [reflexivity|]. cbn [replicate exec].
  rewrite E. exact IH.
Qed.

(** C2 fails as stated: the call of the fiber has ended, by an exception, the
    loop is dead, and the running flag of the fiber is True and stays so. *)
Lemma running_status_stuck_after_raise :
  let s := exec [LoopStep 0; LoopStep 0] (exec raising_schedule (init 0)) in
  threads s = [Died (Exception "boom") (Some (mkFrame 0 2 "T" 0))] ∧
  IsFiberRunning (fiber_bad "T") s = (s, Return (PyBool true)) ∧
  ∀ n, IsFiberRunning (fiber_bad "T") (exec (replicate n (LoopStep 0)) s)
       = (exec (replicate n (LoopStep 0)) s, Return (PyBool true)).
Proof.
  intros s.
  assert (H2 : IsFiberRunning (fiber_bad "T") s = (s, Return (PyBool true)))
    by (vm_compute; reflexivity).
  assert (E : step (LoopStep 0) s = s) by (vm_compute; reflexivity).
  split; [vm_compute; reflexivity|]. split; [exact H2|].
  intros n. pose proof (exec_fixed (LoopStep 0) s n E) as En.
  clearbody s. rewrite En. exact H2.
Qed.

(** ** Spacing of the calls of a fiber with an interval *)



(** What an action of the caller or of the clock leaves alone. *)
Lemma step_other_env (a : Action) (s : State) :
  (∀ k, a ≠ LoopStep k) →
  fiber_last_trigger_time (step a s) = fiber_last_trigger_time s ∧
  trace (step a s) = trace s ∧
  (clock (step a s) = clock s ∨
   ∃ d, a = Tick d ∧ clock (step a s) = (clock s + d)%Z).
Proof.
  intros Ha. destruct a as [d|op| |k]; unfold step.
  - repeat split; eauto.
  - destruct (caller s) eqn:Hc; [|by repeat split; eauto..].
    destruct (settle_frame op (api op s)) as (_ & _ & -> & _ & -> & _ & ->).
    destruct op; simpl; unfold ActivateFiber, IsFiberRunning;
      repeat case_match; simplify_eq/=; repeat split; eauto.
  - destruct (caller s) as [|f|f]; [by repeat split; eauto| |].
    + destruct (settle_frame (CallDeactivateFiber f) (DeactivateFiber_step (D29 f) s))
        as (_ & _ & -> & _ & -> & _ & ->).
      destruct (caller_step_frame (D29 f) s) as (_ & -> & _ & -> & _ & -> & _).
      repeat split; eauto.
    + destruct (settle_frame (CallDeactivateFiber f) (DeactivateFiber_step (D31 f) s))
        as (_ & _ & -> & _ & -> & _ & ->).
      destruct (caller_step_frame (D31 f) s) as (_ & -> & _ & -> & _ & -> & _).
      repeat split; eauto.
  - by destruct (Ha k).
Qed.

(** What a statement of the loop does to the trigger times, the trace and
    the program counter. *)
Lemma RunFiberLoop_step_effects (pc : LoopPC) (s : State) :
  let s' := (RunFiberLoop_step pc s).1 in
  let pc' := (RunFiberLoop_step pc s).2 in
  clock s' = clock s ∧
  (fiber_last_trigger_time s' = fiber_last_trigger_time s ∨
   ∃ fr, (pc = L47 fr ∨ pc = L51 fr) ∧
     fiber_last_trigger_time s' =
       <[fr_name fr := clock s]> (fiber_last_trigger_time s)) ∧
  (trace s' = trace s ∨
   ∃ fr st o, pc = L53 fr st ∧ heap s !! fr_info fr = Some o ∧
     fiber_last_trigger_time s' = fiber_last_trigger_time s ∧
     trace s' = mkEvent (fr_name fr) (fr_info fr) (args o) (interval o) st :: trace s) ∧
  (∀ fr, pc' = L51 fr →
     (∃ o, pc = L45 fr ∧ heap s !! fr_info fr = Some o ∧ interval o = None) ∨
     (∃ o l iv, pc = L48 fr ∧ heap s !! fr_info fr = Some o ∧ interval o = Some iv ∧
        fiber_last_trigger_time s !! fr_name fr = Some l ∧ (l + iv ≤ clock s)%Z)) ∧
  (∀ fr st, stamped pc' = Some (fr, st) →
     (pc = L51 fr ∧ st = clock s ∧
      fiber_last_trigger_time s' = <[fr_name fr := clock s]> (fiber_last_trigger_time s)) ∨
     (pc = L52 fr st ∧ fiber_last_trigger_time s' = fiber_last_trigger_time s)).
Proof.
  destruct pc; simpl; repeat case_match; simpl;
    (split; [done|]); (split; [by eauto|]); (split; [by eauto 10|]);
    (split; [intros ? ?; simplify_eq|intros ? ? ?; simplify_eq; by eauto]).
  - left. eauto.
  - right. eexists _, _, _. repeat split; eauto.
    match goal with H : (_ <? _)%Z = false |- _ => apply Z.ltb_ge in H; lia end.
Qed.









(** ** One fiber with an interval, driven by a simulated clock *)

Lemma run_pass_next (k n : nat) (s s' : State) :
  step (LoopStep k) s = s' →
  match threads s' !! k with Some L39 => False | _ => True end →
  run_pass k (S n) s = run_pass k n s'.
Proof.
  intros <- H.
  change (run_pass k (S n) s) with
    (match threads (step (LoopStep k) s) !! k with
     | Some L39 => step (LoopStep k) s
     | _ => run_pass k n (step (LoopStep k) s)
     end).
  by destruct (threads (step (LoopStep k) s) !! k) as [[]|].
Qed.

Lemma run_pass_last (k n : nat) (s s' : State) :
  step (LoopStep k) s = s' → threads s' !! k = Some L39 →
  run_pass k (S n) s = s'.
Proof.
  intros <- H.
  change (run_pass k (S n) s) with
    (match threads (step (LoopStep k) s) !! k with
     | Some L39 => step (LoopStep k) s
     | _ => run_pass k n (step (LoopStep k) s)
     end).
  by rewrite H.
Qed.

Lemma lone_setup f a iv t0 :
  exec [Call (CallRegisterFiber f a (Some iv) false); Call (CallActivateFiber f);
        Call CallRun; LoopStep 0] (init t0) =
  lone_at L39 f a iv ∅ t0
    [(CallRun, Return PyNone); (CallActivateFiber f, Return PyNone);
     (CallRegisterFiber f a (Some iv) false, Return PyNone)] [].
Proof.
  cbn. unfold ActivateFiber. cbn. rewrite decide_True by done. reflexivity.
Qed.

Ltac pass_go pc m' tr' :=
  match goal with
  | |- run_pass 0 (S ?n) (lone_at _ ?f ?a ?iv _ ?t ?rs _) = _ =>
      rewrite (run_pass_next 0 n _ (lone_at pc f a iv m' t rs tr'));
      [|unfold lone_at, step; simpl|exact I]
  end.

Ltac pass_end m' tr' :=
  match goal with
  | |- run_pass 0 (S ?n) (lone_at _ ?f ?a ?iv _ ?t ?rs _) = _ =>
      rewrite (run_pass_last 0 n _ (lone_at L39 f a iv m' t rs tr'));
      [|unfold lone_at, step; simpl|reflexivity]
  end.

Lemma pass_seed f a iv m t rs tr n :
  m !! __name__ f = None → (0 < iv)%Z →
  run_pass 0 (9 + n) (lone_at L39 f a iv m t rs tr) =
    lone_at L39 f a iv (<[__name__ f := t]> m) t rs tr.
Proof.
  intros Hm Hiv. simpl Nat.add. set (fr := mkFrame 0 1 (__name__ f) 0).
  pass_go (L40 0 1) m tr; [|reflexivity].
  pass_go (L41 fr) m tr; [|reflexivity].
  pass_go (L43 fr) m tr; [|reflexivity].
  pass_go (L45 fr) m tr; [|reflexivity].
  pass_go (L46 fr) m tr; [|reflexivity].
  pass_go (L47 fr) m tr; [|by rewrite Hm].
  pass_go (L48 fr) (<[__name__ f := t]> m) tr; [|reflexivity].
  pass_go (L40 1 1) (<[__name__ f := t]> m) tr.
  2: { rewrite lookup_insert_eq, Z.sub_diag.
       by destruct (Z.ltb_spec 0 iv); [|lia]. }
  pass_end (<[__name__ f := t]> m) tr; reflexivity.
Qed.

Lemma pass_skip f a iv m t rs tr n last :
  m !! __name__ f = Some last → (t - last < iv)%Z →
  run_pass 0 (8 + n) (lone_at L39 f a iv m t rs tr) = lone_at L39 f a iv m t rs tr.
Proof.
  intros Hm Hiv. simpl Nat.add. set (fr := mkFrame 0 1 (__name__ f) 0).
  pass_go (L40 0 1) m tr; [|reflexivity].
  pass_go (L41 fr) m tr; [|reflexivity].
  pass_go (L43 fr) m tr; [|reflexivity].
  pass_go (L45 fr) m tr; [|reflexivity].
  pass_go (L46 fr) m tr; [|reflexivity].
  pass_go (L48 fr) m tr; [|by rewrite Hm].
  pass_go (L40 1 1) m tr.
  2: { rewrite Hm. by destruct (Z.ltb_spec (t - last) iv); [|lia]. }
  pass_end m tr; reflexivity.
Qed.

Lemma pass_fire f a iv m t rs tr n last v :
  m !! __name__ f = Some last → (iv ≤ t - last)%Z →
  __call__ f a (length tr) = Return v →
  run_pass 0 (14 + n) (lone_at L39 f a iv m t rs tr) =
    lone_at L39 f a iv (<[__name__ f := t]> m) t rs
      (mkEvent (__name__ f) 0 a (Some iv) t :: tr).
Proof.
  intros Hm Hiv Hcall. simpl Nat.add. set (fr := mkFrame 0 1 (__name__ f) 0).
  set (m' := <[__name__ f := t]> m).
  set (tr' := mkEvent (__name__ f) 0 a (Some iv) t :: tr).
  pass_go (L40 0 1) m tr; [|reflexivity].
  pass_go (L41 fr) m tr; [|reflexivity].
  pass_go (L43 fr) m tr; [|reflexivity].
  pass_go (L45 fr) m tr; [|reflexivity].
  pass_go (L46 fr) m tr; [|reflexivity].
  pass_go (L48 fr) m tr; [|by rewrite Hm].
  pass_go (L51 fr) m tr.
  2: { rewrite Hm. by destruct (Z.ltb_spec (t - last) iv); [lia|]. }
  pass_go (L52 fr t) m' tr; [|reflexivity].
  rewrite (run_pass_next 0 _ _
    (mkState [mkFiberInfo (__name__ f) f a (Some iv) true true] [(__name__ f, 0)]
             m' true t [L53 fr t] Ready rs tr)); [|reflexivity|exact I].
  rewrite (run_pass_next 0 _ _
    (mkState [mkFiberInfo (__name__ f) f a (Some iv) true true] [(__name__ f, 0)]
             m' true t [InCall fr (Return v)] Ready rs tr'));
    [|unfold step; simpl; by rewrite Hcall|exact I].
  rewrite (run_pass_next 0 _ _
    (mkState [mkFiberInfo (__name__ f) f a (Some iv) true true] [(__name__ f, 0)]
             m' true t [L57 fr] Ready rs tr')); [|reflexivity|exact I].
  rewrite (run_pass_next 0 _ _ (lone_at (L58 fr) f a iv m' t rs tr'));
    [|reflexivity|exact I].
  pass_go (L40 1 1) m' tr'; [|reflexivity].
  pass_end m' tr'; reflexivity.
Qed.

Lemma with_clock_lone_at pc f a iv m t t' rs tr :
  with_clock t (lone_at pc f a iv m t' rs tr) = lone_at pc f a iv m t rs tr.
Proof. reflexivity. Qed.

(** C4: a fiber registered with interval 5 and then activated, with any
    argument and any body that returns; the loop is started at time 0 and
    makes one pass at each of the times 0, 1, ..., 11.  The pass at time 0
    calls nothing and stores 0 as last trigger time; after the twelve passes
    the fiber has been called exactly twice, in the passes at times 5 and
    10. *)
Theorem scenario_B_two_calls (f : callable) (a : option (list Z)) :
  (∀ x n, ∃ v, __call__ f x n = Return v) →
  let s0 := exec [Call (CallRegisterFiber f a (Some 5%Z) false);
                  Call (CallActivateFiber f); Call CallRun; LoopStep 0] (init 0) in
  let s1 := drive 0 20 [0%Z] s0 in
  let s12 := drive 0 20 [1; 2; 3; 4; 5; 6; 7; 8; 9; 10; 11]%Z s1 in
  threads s1 = [L39] ∧ trace s1 = [] ∧
  fiber_last_trigger_time s1 !! __name__ f = Some 0%Z ∧
  threads s12 = [L39] ∧
  trace s12 = [mkEvent (__name__ f) 0 a (Some 5%Z) 10;
               mkEvent (__name__ f) 0 a (Some 5%Z) 5].
Proof.
  intros Hret s0 s1 s12. subst s0 s1 s12. rewrite lone_setup.
  cbn [drive]. rewrite with_clock_lone_at.
  rewrite (pass_seed f a 5 ∅ 0 _ [] 11) by (by rewrite ?lookup_empty).
  split; [done|]. split; [done|]. split; [apply lookup_insert_eq|].
  do 4 (rewrite with_clock_lone_at;
        rewrite (pass_skip f a 5 _ _ _ _ 12 0) by (by rewrite ?lookup_insert_eq)).
  destruct (Hret a 0) as [v1 Hv1].
  rewrite with_clock_lone_at.
  rewrite (pass_fire f a 5 _ _ _ _ 6 0 v1) by (by rewrite ?lookup_insert_eq).
  do 4 (rewrite with_clock_lone_at;
        rewrite (pass_skip f a 5 _ _ _ _ 12 5) by (by rewrite ?lookup_insert_eq)).
  destruct (Hret a 1) as [v2 Hv2].
  rewrite with_clock_lone_at.
  rewrite (pass_fire f a 5 _ _ _ _ 6 5 v2) by (by rewrite ?lookup_insert_eq).
  rewrite with_clock_lone_at.
  rewrite (pass_skip f a 5 _ _ _ _ 12 10) by (by rewrite ?lookup_insert_eq).
  done.
Qed.

(** The scenario with a fiber that takes an argument and returns None. *)
Lemma scenario_B_two_calls_witness :
  let s0 := exec [Call (CallRegisterFiber (fiber_ok "T") (Some [1%Z]) (Some 5%Z) false);
                  Call (CallActivateFiber (fiber_ok "T")); Call CallRun; LoopStep 0]
              (init 0) in
  let s12 := drive 0 20 [1; 2; 3; 4; 5; 6; 7; 8; 9; 10; 11]%Z (drive 0 20 [0%Z] s0) in
  trace s12 = [mkEvent "T" 0 (Some [1%Z]) (Some 5%Z) 10;
               mkEvent "T" 0 (Some [1%Z]) (Some 5%Z) 5].
Proof.
  refine (proj2 (proj2 (proj2 (proj2
    (scenario_B_two_calls (fiber_ok "T") (Some [1%Z]) _))))).
  intros x n. by exists PyNone.
Defined.

(** * Further properties of the scheduler *)

(** ** Stopping the loop *)

Lemma stopped_spec (s : State) :
  stopped s = true ↔
  is_running s = false ∧ ∀ k pc, threads s !! k = Some pc → pc ≠ L38.
Proof.
  unfold stopped. rewrite andb_true_iff, negb_true_iff, forallb_lookup.
  split; intros [H1 H2]; (split; [done|]); intros k pc Hk.
  - intros ->. by specialize (H2 k L38 Hk).
  - destruct pc; try done. by destruct (H2 k L38 Hk).
Qed.

Lemma RunFiberLoop_step_stopped (pc : LoopPC) (s : State) :
  is_running s = false → pc ≠ L38 →
  let s' := (RunFiberLoop_step pc s).1 in
  let pc' := (RunFiberLoop_step pc s).2 in
  is_running s' = false ∧ pc' ≠ L38 ∧
  (terminated pc = true ∨ rank pc' < rank pc) ∧
  ((trace s' = trace s ∧ (committed pc' = true → committed pc = true)) ∨
   (length (trace s') = S (length (trace s)) ∧ committed pc = true ∧
    committed pc' = false)).
Proof.
  intros Hrun Hpc. destruct pc; try done; simpl; rewrite ?Hrun;
    repeat case_match; simpl; repeat split; try done; try lia;
    first [by left | by right | left; split; [done|]; lia | right; lia | idtac].
Qed.

Lemma count_committed_insert (ts : list LoopPC) (k : nat) (pc pc' : LoopPC) :
  ts !! k = Some pc →
  count_committed (<[k:=pc']> ts) + (if committed pc then 1 else 0) =
  count_committed ts + (if committed pc' then 1 else 0).
Proof.
  unfold count_committed. revert k.
  induction ts as [|x ts IH]; intros [|k] Hk; simplify_eq/=.
  - destruct (committed pc), (committed pc'); simpl; lia.
  - specialize (IH k Hk). destruct (committed x); simpl; lia.
Qed.

Lemma step_other_is_running (a : Action) (s : State) :
  (∀ k, a ≠ LoopStep k) →
  is_running (step a s) = is_running s ∨ is_running (step a s) = false.
Proof.
  intros Ha. destruct a as [d|op| |k]; unfold step.
  - by left.
  - destruct (caller s) eqn:Hc; [|by left..].
    destruct (settle_frame op (api op s)) as (_ & _ & _ & -> & _).
    destruct op; simpl; unfold ActivateFiber, IsFiberRunning;
      repeat case_match; simplify_eq/=; first [by left | by right].
  - left. destruct (caller s) as [|f|f]; [done| |].
    + destruct (settle_frame (CallDeactivateFiber f) (DeactivateFiber_step (D29 f) s))
        as (_ & _ & _ & -> & _).
      by destruct (caller_step_frame (D29 f) s) as (_ & _ & _ & _ & -> & _).
    + destruct (settle_frame (CallDeactivateFiber f) (DeactivateFiber_step (D31 f) s))
        as (_ & _ & _ & -> & _).
      by destruct (caller_step_frame (D31 f) s) as (_ & _ & _ & _ & -> & _).
  - by destruct (Ha k).
Qed.

Lemma stopped_step (a : Action) (s : State) :
  stopped s = true → is_start a = false →
  stopped (step a s) = true ∧
  length (trace (step a s)) + count_committed (threads (step a s)) ≤
    length (trace s) + count_committed (threads s).
Proof.
  rewrite !stopped_spec. intros [Hrun Hth] Ha.
  assert (Hcase : (∃ k, a = LoopStep k) ∨ ∀ k, a ≠ LoopStep k)
    by (destruct a; eauto).
  destruct Hcase as [[k ->]|Hno].
  - destruct (threads s !! k) as [pc|] eqn:Hk;
      [|unfold step; rewrite Hk; by repeat split].
    rewrite (step_LoopStep k pc s Hk).
    destruct (RunFiberLoop_step_stopped pc s Hrun (Hth k pc Hk))
      as (Hrun' & Hpc' & _ & Htr).
    pose proof (count_committed_insert (threads s) k pc (RunFiberLoop_step pc s).2 Hk).
    destruct (RunFiberLoop_step pc s) as [s' pc']. simpl in *.
    split; [split; [done|]|].
    + intros j pcj Hj. destruct (decide (k = j)) as [->|Hne].
      * rewrite list_lookup_insert_eq in Hj by (by eapply lookup_lt_Some).
        by simplify_eq.
      * rewrite list_lookup_insert_ne in Hj by done. eauto.
    + destruct Htr as [[-> Hc]|(-> & Hc & Hc')].
      * destruct (committed pc'); [rewrite Hc in H by done|];
          destruct (committed pc); lia.
      * rewrite Hc, Hc' in H. lia.
  - destruct (step_other_threads a s Hno) as [[_ Eth]|[Hst _]]; [|congruence].
    destruct (step_other_env a s Hno) as (_ & Etr & _).
    rewrite Eth, Etr. split; [|lia]. split; [|done].
    destruct (step_other_is_running a s Hno) as [E|E]; congruence.
Qed.

Lemma stopped_Stop (s0 : State) :
  forallb (λ pc, negb (unstarted pc)) (threads s0) = true →
  stopped (Stop s0).1 = true.
Proof. intros H. unfold stopped. simpl. exact H. Qed.

(** X1: after [Stop], when no thread is still before its first statement,
    and as long as [Run] and [Resume] are not called, [is_running] stays
    False and the number of calls of fibers grows at most by the number of
    threads that had already passed the test of line 41: an iteration that
    was selected still makes its call, no other call begins. *)
Theorem Stop_bounds_calls (s0 : State) (acts : list Action) :
  forallb (λ pc, negb (unstarted pc)) (threads s0) = true →
  forallb (λ a, negb (is_start a)) acts = true →
  let s := exec acts (Stop s0).1 in
  is_running s = false ∧
  length (trace s) ≤ length (trace s0) + count_committed (threads s0).
Proof.
  intros H0 Hacts s.
  assert (H : stopped s = true ∧
              length (trace s) + count_committed (threads s) ≤
                length (trace s0) + count_committed (threads s0)).
  { subst s. pose proof (stopped_Stop s0 H0) as Hs.
    change (length (trace s0) + count_committed (threads s0))
      with (length (trace (Stop s0).1) + count_committed (threads (Stop s0).1)).
    generalize dependent (Stop s0).1. clear H0.
    induction acts as [|a acts IH]; intros s Hs; [simpl; split; [done|lia]|].
    simpl in Hacts. apply andb_prop in Hacts as [Ha Hacts].
    apply negb_true_iff in Ha.
    destruct (stopped_step a s Hs Ha) as [Hs' Hle].
    destruct (IH Hacts (step a s) Hs') as [Hs'' Hle'].
    simpl. split; [done|lia]. }
  destruct H as [Hs Hle]. apply stopped_spec in Hs as [Hrun _].
  split; [done|lia].
Qed.

Lemma rank_zero (pc : LoopPC) : rank pc = 0 → terminated pc = true.
Proof. by destruct pc. Qed.

Lemma rank_bound (pc : LoopPC) : pc ≠ L38 → rank pc ≤ 14.
Proof. destruct pc; simpl; intros; try done; lia. Qed.

Lemma stopped_ends (k : nat) (acts : list Action) (s : State) (pc : LoopPC) :
  stopped s = true →
  forallb (λ a, negb (is_start a)) acts = true →
  threads s !! k = Some pc →
  rank pc ≤ statements_of k acts →
  ∃ pc', threads (exec acts s) !! k = Some pc' ∧ terminated pc' = true.
Proof.
  revert s pc. induction acts as [|a acts IH]; intros s pc Hs Hacts Hk Hrank.
  - exists pc. split; [done|]. apply rank_zero. unfold statements_of in Hrank.
    simpl in Hrank. lia.
  - simpl in Hacts. apply andb_prop in Hacts as [Ha Hacts].
    apply negb_true_iff in Ha.
    destruct (stopped_step a s Hs Ha) as [Hs' _].
    assert (∃ pc1, threads (step a s) !! k = Some pc1 ∧
                   rank pc1 ≤ statements_of k acts) as (pc1 & Hk1 & Hr1);
      [|simpl; by eapply IH].
    apply stopped_spec in Hs as [Hrun Hth].
    destruct a as [d|op| |j].
    + exists pc. by split.
    + destruct (step_other_threads (Call op) s) as [[_ ->]|[Hst _]];
        [done| |congruence]. exists pc. by split.
    + destruct (step_other_threads CallerStep s) as [[_ ->]|[Hst _]];
        [done| |done]. exists pc. by split.
    + unfold statements_of in Hrank. simpl in Hrank.
      destruct (decide (j = k)) as [->|Hne].
      * rewrite bool_decide_eq_true_2 in Hrank by done. simpl in Hrank.
        rewrite (step_LoopStep k pc s Hk). simpl.
        rewrite list_lookup_insert_eq by (by eapply lookup_lt_Some).
        eexists. split; [done|].
        destruct (RunFiberLoop_step_stopped pc s Hrun (Hth k pc Hk))
          as (_ & _ & [Hterm|Hlt] & _).
        -- rewrite terminated_step by done. simpl.
           assert (rank pc = 0) by (by destruct pc). lia.
        -- unfold statements_of. lia.
      * rewrite bool_decide_eq_false_2 in Hrank by done.
        exists pc. split; [|done].
        destruct (threads s !! j) as [pcj|] eqn:Hj;
          [|unfold step; by rewrite Hj].
        rewrite (step_LoopStep j pcj s Hj). simpl.
        by rewrite list_lookup_insert_ne.
Qed.

(** X2: after [Stop], when no thread is still before its first statement
    and [Run] and [Resume] are not called, every loop ends: whatever else
    happens meanwhile, a thread has returned from [RunFiberLoop] (or died)
    once it has executed fourteen more statements. *)
Theorem Stop_ends_loop (s0 : State) (k : nat) (acts : list Action) :
  forallb (λ pc, negb (unstarted pc)) (threads s0) = true →
  forallb (λ a, negb (is_start a)) acts = true →
  k < length (threads s0) →
  14 ≤ statements_of k acts →
  ∃ pc', threads (exec acts (Stop s0).1) !! k = Some pc' ∧ terminated pc' = true.
Proof.
  intros H0 Hacts Hk Hn.
  destruct (lookup_lt_is_Some_2 (threads s0) k Hk) as [pc Hpc].
  apply (stopped_ends k acts (Stop s0).1 pc); [by apply stopped_Stop|done|done|].
  assert (Hne : pc ≠ L38).
  { intros ->. rewrite forallb_lookup in H0. by specialize (H0 k L38 Hpc). }
  pose proof (rank_bound pc Hne). lia.
Qed.

(** X3: [Stop] called after [Run] but before the new thread has executed
    its first statement is lost: line 38 sets [is_running] again and the
    thread enters the loop. *)
Theorem Stop_right_after_Run_is_lost (s : State) :
  caller s = Ready →
  let k := length (threads s) in
  let s' := exec [Call CallRun; Call CallStop; LoopStep k; LoopStep k] s in
  is_running s' = true ∧
  threads s' !! k = Some (L40 0 (length (fiber_list s))).
Proof.
  intros Hc. destruct s as [h d m b t ts c rs tr]. simpl in Hc. subst c.
  cbn [exec step caller api Run Stop settle with_threads with_is_running
       with_caller with_returned threads heap fiber_list fiber_last_trigger_time
       is_running clock returned trace fst snd].
  rewrite lookup_app_r by lia. rewrite Nat.sub_diag. simpl.
  rewrite list_lookup_insert_eq by (rewrite length_app; simpl; lia). simpl.
  split; [done|]. apply list_lookup_insert_eq.
  rewrite length_insert, length_app. simpl. lia.
Qed.

(** ** Activation *)

Lemma alter_twice (g : FiberInfo → FiberInfo) (r : nat) (h : list FiberInfo) :
  (∀ o, g (g o) = g o) → alter g r (alter g r h) = alter g r h.
Proof.
  intros Hg. apply list_eq. intros i. destruct (decide (r = i)) as [->|Hne].
  - rewrite !list_lookup_alter_eq. destruct (h !! i); simpl; by rewrite ?Hg.
  - by rewrite !list_lookup_alter_ne.
Qed.

(** X4: on a registered fiber, [ActivateFiber] returns normally, sets the
    enabled flag of the descriptor of that name and nothing else (the other
    descriptors, the running flag, the registry, the trigger times and
    [is_running] are as before), and a second call changes nothing. *)
Theorem ActivateFiber_sets_only_the_flag (f : callable) (s : State) (r : nat) (o : FiberInfo) :
  dict_get (__name__ f) (fiber_list s) = Some r →
  heap s !! r = Some o →
  let s1 := (ActivateFiber f s).1 in
  (ActivateFiber f s).2 = Return PyNone ∧
  heap s1 !! r = Some (mkFiberInfo (fiber_name o) (fiber o) (args o) (interval o)
                         true (running_status o)) ∧
  (∀ r', r' ≠ r → heap s1 !! r' = heap s !! r') ∧
  s1 = with_heap (heap s1) s ∧
  ActivateFiber f s1 = (s1, Return PyNone).
Proof.
  intros Hget Ho. unfold ActivateFiber. rewrite Hget. simpl.
  rewrite Hget. unfold setattr. simpl.
  split; [done|]. split; [by rewrite list_lookup_alter_eq, Ho|].
  split; [by intros r' Hne; rewrite list_lookup_alter_ne|].
  split; [done|]. by rewrite alter_twice.
Qed.

(** ** Registering while the loop iterates *)

(** X5: the loop is about to fetch the next item of the registry (line 40)
    when [RegisterFiber] is called.  For a name that is not registered the
    dictionary grows, and the loop dies at line 40 with [RuntimeError]
    (dictionary changed size during iteration); for a name that is
    registered the loop goes on as it would have. *)
Theorem RegisterFiber_during_pass (f : callable) (x : option (list Z)) (i : option Z)
    (act : bool) (s : State) (k pos : nat) :
  caller s = Ready →
  threads s !! k = Some (L40 pos (length (fiber_list s))) →
  let s' := exec [Call (CallRegisterFiber f x i act); LoopStep k] s in
  (dict_get (__name__ f) (fiber_list s) = None →
   threads s' !! k =
     Some (Died (RuntimeError "dictionary changed size during iteration") None)) ∧
  (is_Some (dict_get (__name__ f) (fiber_list s)) →
   ∃ pc', threads s' !! k = Some pc' ∧ terminated pc' = false ∧
          ∀ e d, pc' ≠ Died e d).
Proof.
  intros Hc Hk s'.
  set (s1 := step (Call (CallRegisterFiber f x i act)) s).
  assert (Hth : threads s1 = threads s)
    by (subst s1; unfold step; rewrite Hc; reflexivity).
  assert (Hfl : fiber_list s1 = dict_set (__name__ f) (length (heap s)) (fiber_list s))
    by (subst s1; unfold step; rewrite Hc; reflexivity).
  assert (Hk1 : threads s1 !! k = Some (L40 pos (length (fiber_list s))))
    by (by rewrite Hth).
  assert (Es : s' = step (LoopStep k) s1) by reflexivity.
  rewrite Es, (step_LoopStep k _ s1 Hk1). clear Es. clearbody s1.
  pose proof (lookup_lt_Some _ _ _ Hk1) as Hlt.
  cbn [RunFiberLoop_step]. rewrite Hfl. split.
  - intros Hnew. rewrite (dict_set_new _ _ _ Hnew), length_app. simpl.
    rewrite decide_False by lia. simpl. by apply list_lookup_insert_eq.
  - intros Hold. rewrite (dict_set_length_old _ _ _ Hold).
    rewrite decide_True by done.
    destruct (dict_set (__name__ f) (length (heap s)) (fiber_list s) !! pos)
      as [[key r]|]; simpl;
      rewrite list_lookup_insert_eq by done; eexists; (split; [done|]); by split.
Qed.

(** ** One fiber at a time *)

(** X6: with one loop, fibers execute one at a time: in every state the
    scheduler can reach, [IsFiberRunning] is True for at most one registered
    name, and at most one descriptor has its running flag set. *)
Theorem one_fiber_running_at_a_time (t0 : Z) (acts : list Action) :
  admissible first_start acts (init t0) = true →
  let s := exec acts (init t0) in
  (∀ r1 r2 o1 o2, heap s !! r1 = Some o1 → heap s !! r2 = Some o2 →
     running_status o1 = true → running_status o2 = true → r1 = r2) ∧
  (∀ f g, (IsFiberRunning f s).2 = Return (PyBool true) →
          (IsFiberRunning g s).2 = Return (PyBool true) →
          __name__ f = __name__ g).
Proof.
  intros Hadm s.
  assert (Hinv : running_inv s).
  { apply (exec_invariant first_start running_inv running_inv_step);
      [done|apply running_inv_init]. }
  destruct Hinv as ([Hd _] & _ & Hrun).
  assert (Huniq : ∀ r1 r2 o1 o2, heap s !! r1 = Some o1 → heap s !! r2 = Some o2 →
            running_status o1 = true → running_status o2 = true → r1 = r2).
  { intros r1 r2 o1 o2 H1 H2 R1 R2.
    apply (Hrun r1 o1 H1) in R1 as (pc1 & Hpc1 & Hin1).
    apply (Hrun r2 o2 H2) in R2 as (pc2 & Hpc2 & Hin2).
    assert (pc2 = pc1) as -> by congruence.
    destruct pc1; simpl in *; destruct Hin1, Hin2; simplify_eq; try done;
      destruct during; simplify_eq; done. }
  split; [exact Huniq|].
  intros f g Hf Hg. unfold IsFiberRunning in Hf, Hg.
  destruct (dict_get (__name__ f) (fiber_list s)) as [rf|] eqn:Ef; [|done].
  destruct (dict_get (__name__ g) (fiber_list s)) as [rg|] eqn:Eg; [|done].
  destruct (Hd _ _ (dict_get_elem _ _ _ Ef)) as (o1 & Hof & Hnf).
  destruct (Hd _ _ (dict_get_elem _ _ _ Eg)) as (o2 & Hog & Hng).
  rewrite Hof in Hf. rewrite Hog in Hg. simpl in *.
  assert (rf = rg) as -> by (eapply Huniq; eauto; congruence).
  congruence.
Qed.

(** ** The trigger time of a disabled fiber *)

Lemma disabled_step_trigger_time (n : string) (a : Action) (s : State) :
  not_selected n s = true →
  fiber_last_trigger_time (step a s) !! n = fiber_last_trigger_time s !! n.
Proof.
  rewrite not_selected_spec. intros Hs.
  assert (Hcase : (∃ k, a = LoopStep k) ∨ ∀ k, a ≠ LoopStep k)
    by (destruct a; eauto).
  destruct Hcase as [[k ->]|Hno];
    [|by destruct (step_other_env a s Hno) as (-> & _)].
  destruct (threads s !! k) as [pc|] eqn:Hk; [|unfold step; by rewrite Hk].
  rewrite (step_LoopStep k pc s Hk). simpl.
  destruct (RunFiberLoop_step_effects pc s) as (_ & [->|(fr & Hpc & ->)] & _);
    [done|].
  rewrite lookup_insert_ne; [done|].
  apply (Hs k pc fr Hk). by destruct Hpc as [->| ->].
Qed.

(** X7: the loop does not touch the trigger time of a disabled fiber.
    Under the conditions of a disabled fiber (every descriptor of the name
    disabled, no thread already past line 43 for it, no action that enables
    it), the entry of the name in [fiber_last_trigger_time] stays what it was:
    in particular a fiber that was never enabled has no trigger time, and its
    interval starts to count when the loop first finds it enabled. *)
Theorem disabled_fiber_keeps_trigger_time (n : string) (t0 : Z) (pre acts : list Action) :
  let s := exec pre (init t0) in
  disabled n s = true →
  not_selected n s = true →
  forallb (keeps_disabled n) acts = true →
  fiber_last_trigger_time (exec acts s) !! n = fiber_last_trigger_time s !! n.
Proof.
  intros s. assert (Hwf : wf s) by apply wf_exec, wf_init. clearbody s.
  revert s Hwf. induction acts as [|a acts IH]; intros s Hwf Hd Hs Hacts; [done|].
  simpl in *. apply andb_prop in Hacts as [Ha Hacts].
  destruct (disabled_step n a s Hwf Hd Hs Ha) as (Hd' & Hs' & _).
  rewrite (IH (step a s) (wf_step a s Hwf) Hd' Hs' Hacts).
  by apply disabled_step_trigger_time.
Qed.

(** ** The order of the registry *)

Lemma dict_set_position {V} (k : string) (v : V) (d : list (string * V))
    (pos : nat) (key : string) :
  d.*1 !! pos = Some key → (dict_set k v d).*1 !! pos = Some key.
Proof.
  revert pos. induction d as [|[k' v'] d IH]; intros pos; [done|].
  simpl. destruct (decide (k' = k)) as [->|Hne]; [done|].
  destruct pos as [|pos]; simpl; [done|]. apply IH.
Qed.

(** X8: a name keeps its position in the registry, which is the order in
    which the loop visits the fibers: whatever the schedule (registrations of
    new names, registrations of the same name again, calls, loop statements),
    the name at a position stays at that position, and nothing is ever
    removed.  Registering a new name puts it after all the others. *)
Theorem registry_order_is_stable :
  (∀ acts s pos key,
     (fiber_list s).*1 !! pos = Some key →
     (fiber_list (exec acts s)).*1 !! pos = Some key) ∧
  (∀ f x i act s,
     dict_get (__name__ f) (fiber_list s) = None →
     (fiber_list (RegisterFiber f x i act s).1).*1 =
       (fiber_list s).*1 ++ [__name__ f]).
Proof.
  split.
  - intros acts. induction acts as [|a acts IH]; intros s pos key Hpos; [done|].
    simpl. apply IH.
    destruct (step_fiber_list a s) as [->|(f & x & i & act & _ & _ & -> & _)];
      [done|]. by apply dict_set_position.
  - intros f x i act s Hnew. simpl. rewrite (dict_set_new _ _ _ Hnew).
    by rewrite fmap_app.
Qed.

(** ** An interval that is not positive *)

Lemma pass_seed_fire f a iv m t rs tr n v :
  m !! __name__ f = None → (iv ≤ 0)%Z →
  __call__ f a (length tr) = Return v →
  run_pass 0 (16 + n) (lone_at L39 f a iv m t rs tr) =
    lone_at L39 f a iv (<[__name__ f := t]> m) t rs
      (mkEvent (__name__ f) 0 a (Some iv) t :: tr).
Proof.
  intros Hm Hiv Hcall. simpl Nat.add. set (fr := mkFrame 0 1 (__name__ f) 0).
  set (m' := <[__name__ f := t]> m).
  set (tr' := mkEvent (__name__ f) 0 a (Some iv) t :: tr).
  pass_go (L40 0 1) m tr; [|reflexivity].
  pass_go (L41 fr) m tr; [|reflexivity].
  pass_go (L43 fr) m tr; [|reflexivity].
  pass_go (L45 fr) m tr; [|reflexivity].
  pass_go (L46 fr) m tr; [|reflexivity].
  pass_go (L47 fr) m tr; [|by rewrite Hm].
  pass_go (L48 fr) m' tr; [|reflexivity].
  pass_go (L51 fr) m' tr.
  2: { subst m'. rewrite lookup_insert_eq, Z.sub_diag.
       by destruct (Z.ltb_spec 0 iv); [lia|]. }
  rewrite (run_pass_next 0 _ _ (lone_at (L52 fr t) f a iv m' t rs tr)).
  2: { unfold lone_at, step; simpl. subst m'. by rewrite insert_insert_eq. }
  2: exact I.
  rewrite (run_pass_next 0 _ _
    (mkState [mkFiberInfo (__name__ f) f a (Some iv) true true] [(__name__ f, 0)]
             m' true t [L53 fr t] Ready rs tr)); [|reflexivity|exact I].
  rewrite (run_pass_next 0 _ _
    (mkState [mkFiberInfo (__name__ f) f a (Some iv) true true] [(__name__ f, 0)]
             m' true t [InCall fr (Return v)] Ready rs tr'));
    [|unfold step; simpl; by rewrite Hcall|exact I].
  rewrite (run_pass_next 0 _ _
    (mkState [mkFiberInfo (__name__ f) f a (Some iv) true true] [(__name__ f, 0)]
             m' true t [L57 fr] Ready rs tr')); [|reflexivity|exact I].
  rewrite (run_pass_next 0 _ _ (lone_at (L58 fr) f a iv m' t rs tr'));
    [|reflexivity|exact I].
  pass_go (L40 1 1) m' tr'; [|reflexivity].
  pass_end m' tr'; reflexivity.
Qed.

Lemma pass_every f a iv m t1 rs tr v :
  (iv ≤ 0)%Z →
  (∀ l, m !! __name__ f = Some l → (l ≤ t1)%Z) →
  __call__ f a (length tr) = Return v →
  run_pass 0 20 (lone_at L39 f a iv m t1 rs tr) =
    lone_at L39 f a iv (<[__name__ f := t1]> m) t1 rs
      (mkEvent (__name__ f) 0 a (Some iv) t1 :: tr).
Proof.
  intros Hiv Hm Hv. destruct (m !! __name__ f) as [l|] eqn:El.
  - apply (pass_fire f a iv m t1 rs tr 6 l v); [done| |done].
    specialize (Hm l eq_refl). lia.
  - by apply (pass_seed_fire f a iv m t1 rs tr 4 v).
Qed.

Lemma drive_cons (k fuel : nat) (t : Z) (ts : list Z) (s : State) :
  drive k fuel (t :: ts) s = drive k fuel ts (run_pass k fuel (with_clock t s)).
Proof. reflexivity. Qed.

Lemma drive_every_pass f a iv (ts : list Z) :
  (iv ≤ 0)%Z →
  (∀ x n, ∃ v, __call__ f x n = Return v) →
  nondecreasing ts = true →
  ∀ m t rs tr,
    (∀ l t1, m !! __name__ f = Some l → head ts = Some t1 → (l ≤ t1)%Z) →
    ∃ m',
      drive 0 20 ts (lone_at L39 f a iv m t rs tr) =
        lone_at L39 f a iv m' (default t (last ts)) rs
          (((λ t, mkEvent (__name__ f) 0 a (Some iv) t) <$> reverse ts) ++ tr).
Proof.
  intros Hiv Hret. induction ts as [|t1 ts IH]; intros Hsorted m t rs tr Hm.
  - exists m. reflexivity.
  - rewrite drive_cons, with_clock_lone_at.
    destruct (Hret a (length tr)) as [v Hv].
    rewrite (pass_every f a iv m t1 rs tr v Hiv); [|by eauto|done].
    assert (Hs' : nondecreasing ts = true).
    { simpl in Hsorted. destruct ts; [done|]. by apply andb_prop in Hsorted as [_ ?]. }
    destruct (IH Hs' (<[__name__ f := t1]> m) t1 rs
                (mkEvent (__name__ f) 0 a (Some iv) t1 :: tr)) as [m' Hm'].
    { intros l t2. rewrite lookup_insert_eq. intros [= <-] Ht2.
      destruct ts as [|t2' ts']; [done|]. simpl in Ht2. injection Ht2 as <-.
      simpl in Hsorted. apply andb_prop in Hsorted as [Hle _]. by apply Z.leb_le. }
    exists m'. rewrite Hm'. clear Hm' IH. f_equal.
    + destruct ts as [|t2 ts']; [reflexivity|]. rewrite last_cons_cons.
      destruct (last (t2 :: ts')) eqn:E; [reflexivity|]. by apply last_None in E.
    + rewrite reverse_cons, fmap_app, <-app_assoc. reflexivity.
Qed.

(** X9: an interval that is zero or negative means every pass.  For a fiber
    registered with such an interval and activated, whose calls return, and a
    loop that makes one pass at each of the times [ts], where the clock does
    not go back: the fiber is called in every pass, the first one included
    (its trigger time is seeded and the test of line 48 lets it through), with
    the time of the pass as trigger time. *)
Theorem nonpositive_interval_every_pass (f : callable) (a : option (list Z))
    (iv : Z) (ts : list Z) :
  (iv ≤ 0)%Z →
  (∀ x n, ∃ v, __call__ f x n = Return v) →
  nondecreasing ts = true →
  let s0 := exec [Call (CallRegisterFiber f a (Some iv) false);
                  Call (CallActivateFiber f); Call CallRun; LoopStep 0] (init 0) in
  let s := drive 0 20 ts s0 in
  threads s = [L39] ∧
  trace s = (λ t, mkEvent (__name__ f) 0 a (Some iv) t) <$> reverse ts.
Proof.
  intros Hiv Hret Hsorted s0 s. subst s0 s. rewrite lone_setup.
  destruct (drive_every_pass f a iv ts Hiv Hret Hsorted ∅ 0%Z
              [(CallRun, Return PyNone); (CallActivateFiber f, Return PyNone);
               (CallRegisterFiber f a (Some iv) false, Return PyNone)] [])
    as [m' Hd]; [by intros l t1; rewrite lookup_empty|].
  rewrite Hd. clear Hd. split; [reflexivity|]. apply app_nil_r.
Qed.

Lemma nonpositive_interval_every_pass_witness :
  let s0 := exec [Call (CallRegisterFiber (fiber_ok "T") None (Some 0%Z) false);
                  Call (CallActivateFiber (fiber_ok "T")); Call CallRun; LoopStep 0]
              (init 0) in
  trace (drive 0 20 [0; 0; 3]%Z s0) =
    [mkEvent "T" 0 None (Some 0%Z) 3; mkEvent "T" 0 None (Some 0%Z) 0;
     mkEvent "T" 0 None (Some 0%Z) 0].
Proof.
  refine (proj2 (nonpositive_interval_every_pass (fiber_ok "T") None 0 [0; 0; 3]%Z
                   _ _ eq_refl)).
  - lia.
  - intros x n. by exists PyNone.
Defined.

(** ** A pass over fibers without interval *)

Lemma ready_alter (h : list FiberInfo) (b : bool) (r r' : nat) :
  ready h r → ready (alter (set_running_status b) r' h) r.
Proof.
  intros (o & Ho & Ha & Hi & Hc). destruct (decide (r' = r)) as [->|Hne].
  - exists (set_running_status b o). rewrite list_lookup_alter_eq, Ho. by repeat split.
  - exists o. rewrite list_lookup_alter_ne by done. by repeat split.
Qed.

Lemma idle_alter_other (h : list FiberInfo) (b : bool) (r r' : nat) :
  r' ≠ r → idle h r → idle (alter (set_running_status b) r' h) r.
Proof.
  intros Hne (o & Ho & Hr). exists o. by rewrite list_lookup_alter_ne.
Qed.

Lemma idle_alter_false (h : list FiberInfo) (r : nat) :
  is_Some (h !! r) → idle (alter (set_running_status false) r h) r.
Proof.
  intros [o Ho]. exists (set_running_status false o).
  by rewrite list_lookup_alter_eq, Ho.
Qed.

(** One iteration of the [for] loop that calls the fiber: ten statements. *)
Lemma visit_calls k n h d m t ts c rs tr pos key r o v :
  k < length ts →
  d !! pos = Some (key, r) → h !! r = Some o →
  activation_status o = true → interval o = None →
  __call__ (fiber o) (args o) (length tr) = Return v →
  run_pass k (10 + n)
    (mkState h d m true t (<[k := L40 pos (length d)]> ts) c rs tr) =
  run_pass k n
    (mkState (alter (set_running_status false) r (alter (set_running_status true) r h))
       d (<[key := t]> m) true t (<[k := L40 (S pos) (length d)]> ts) c rs
       (mkEvent key r (args o) None t :: tr)).
Proof.
  intros Hk Hpos Ho Hact Hiv Hcall. simpl Nat.add.
  set (fr := mkFrame pos (length d) key r).
  set (h1 := alter (set_running_status true) r h).
  set (m1 := <[key := t]> m).
  set (tr1 := mkEvent key r (args o) None t :: tr).
  assert (Ho1 : h1 !! r = Some (set_running_status true o))
    by (subst h1; by rewrite list_lookup_alter_eq, Ho).
  assert (Hgo : ∀ n pc pc' h h' m m' tr tr',
    RunFiberLoop_step pc (mkState h d m true t (<[k := pc]> ts) c rs tr) =
      (mkState h' d m' true t (<[k := pc]> ts) c rs tr', pc') →
    pc' ≠ L39 →
    run_pass k (S n) (mkState h d m true t (<[k := pc]> ts) c rs tr) =
    run_pass k n (mkState h' d m' true t (<[k := pc']> ts) c rs tr')).
  { intros n0 pc pc' h0 h' m0 m' tr0 tr' Hstep Hpc'.
    apply run_pass_next.
    - unfold step. cbn [threads]. rewrite list_lookup_insert_eq by done.
      rewrite Hstep. cbn [threads with_threads heap fiber_list
        fiber_last_trigger_time is_running clock caller returned trace].
      by rewrite list_insert_insert_eq.
    - cbn [threads]. rewrite list_lookup_insert_eq by done. by destruct pc'. }
  rewrite (Hgo _ _ (L41 fr) h h m m tr tr); [|by simpl; rewrite decide_True, Hpos|done].
  rewrite (Hgo _ _ (L43 fr) h h m m tr tr); [|done|done].
  rewrite (Hgo _ _ (L45 fr) h h m m tr tr); [|by simpl; rewrite Ho, Hact|done].
  rewrite (Hgo _ _ (L51 fr) h h m m tr tr); [|by simpl; rewrite Ho, Hiv|done].
  rewrite (Hgo _ _ (L52 fr t) h h m m1 tr tr); [|done|done].
  rewrite (Hgo _ _ (L53 fr t) h h1 m1 m1 tr tr); [|done|done].
  rewrite (Hgo _ _ (InCall fr (Return v)) h1 h1 m1 m1 tr tr1);
    [|by simpl; rewrite Ho1; simpl; rewrite Hcall, Hiv|done].
  rewrite (Hgo _ _ (L57 fr) h1 h1 m1 m1 tr1 tr1); [|done|done].
  rewrite (Hgo _ _ (L58 fr) h1 (alter (set_running_status false) r h1) m1 m1 tr1 tr1);
    [|done|done].
  rewrite (Hgo _ _ (L40 (S pos) (length d)) (alter (set_running_status false) r h1)
             (alter (set_running_status false) r h1) m1 m1 tr1 tr1); [|done|done].
  reflexivity.
Qed.

(** The rest of a pass, from position [pos] of the registry. *)
Lemma rest_of_pass k n d t ts c rs (j : nat) :
  k < length ts →
  ∀ pos h m tr,
    pos + j = length d →
    (∀ p key r, d !! p = Some (key, r) → ready h r) →
    ∃ h' m' new,
      run_pass k (10 * j + 1 + n)
        (mkState h d m true t (<[k := L40 pos (length d)]> ts) c rs tr) =
      mkState h' d m' true t (<[k := L39]> ts) c rs (new ++ tr) ∧
      (ev_name <$> reverse new) = (drop pos d).*1 ∧
      (ev_info <$> reverse new) = (drop pos d).*2 ∧
      Forall (λ e, ev_stamp e = t ∧ ev_interval e = None) new ∧
      (∀ r, ready h r → ready h' r) ∧
      (∀ r, idle h r → idle h' r) ∧
      (∀ key, m !! key = Some t → m' !! key = Some t) ∧
      (∀ key r, (key, r) ∈ drop pos d → idle h' r ∧ m' !! key = Some t).
Proof.
  intros Hk. induction j as [|j IH]; intros pos h m tr Hlen Hready.
  - exists h, m, [].
    assert (Hd : drop pos d = []) by (apply drop_ge; lia). rewrite Hd.
    split.
    { apply run_pass_last.
      - unfold step. cbn [threads]. rewrite list_lookup_insert_eq by done.
        cbn [RunFiberLoop_step fiber_list]. rewrite decide_True by done.
        rewrite lookup_ge_None_2 by lia.
        cbn [threads with_threads heap fiber_list fiber_last_trigger_time
             is_running clock caller returned trace].
        by rewrite list_insert_insert_eq.
      - cbn [threads]. by rewrite list_lookup_insert_eq. }
    repeat split; try done;
      by match goal with H : _ ∈ [] |- _ => apply elem_of_nil in H end.
  - destruct (lookup_lt_is_Some_2 d pos) as [[key r] Hpos]; [lia|].
    destruct (Hready pos key r Hpos) as (o & Ho & Hact & Hiv & Hcall).
    destruct (Hcall (length tr)) as [v Hv].
    replace (10 * S j + 1 + n) with (10 + (10 * j + 1 + n)) by lia.
    rewrite (visit_calls k _ h d m t ts c rs tr pos key r o v) by done.
    set (h2 := alter (set_running_status false) r (alter (set_running_status true) r h)).
    set (e := mkEvent key r (args o) None t).
    destruct (IH (S pos) h2 (<[key := t]> m) (e :: tr)) as
      (h' & m' & new & Hrun & Hnames & Hrefs & Hst & Hr' & Hi' & Hm' & Hvis);
      [lia| |].
    { intros p key' r' Hp. subst h2. do 2 apply ready_alter. eauto. }
    exists h', m', (new ++ [e]).
    assert (Hdrop : drop pos d = (key, r) :: drop (S pos) d)
      by (by apply drop_S).
    split; [by rewrite Hrun, <-app_assoc|].
    split; [rewrite reverse_app, fmap_app, Hnames, Hdrop; reflexivity|].
    split; [rewrite reverse_app, fmap_app, Hrefs, Hdrop; reflexivity|].
    rewrite Hdrop.
    split; [apply Forall_app; split; [done|by repeat constructor]|].
    split; [intros r0 Hr0; apply Hr'; subst h2; by do 2 apply ready_alter|].
    assert (Hidle_r : idle h2 r).
    { subst h2. apply idle_alter_false. rewrite list_lookup_alter_eq, Ho. eauto. }
    split.
    { intros r0 Hr0. apply Hi'. destruct (decide (r = r0)) as [<-|Hne]; [done|].
      subst h2. apply idle_alter_other; [done|]. by apply idle_alter_other. }
    split.
    { intros key0 Hk0. apply Hm'. destruct (decide (key = key0)) as [<-|Hne].
      - apply lookup_insert_eq.
      - by rewrite lookup_insert_ne. }
    intros key0 r0 [[= -> ->]|Hin]%elem_of_cons; [|by apply Hvis].
    split; [by apply Hi'|]. apply Hm', lookup_insert_eq.
Qed.

(** X10: one pass of a loop over a registry in which every fiber is
    enabled, has no interval, and returns: the loop calls every fiber exactly
    once, in the order of the registry, each with the clock at its selection
    as trigger time; at the end of the pass the thread is at line 39 again,
    every running flag is False, every name has the time of the pass as
    trigger time, and the registry is ready for the next pass. *)
Theorem pass_calls_every_fiber_in_order (k : nat) (s : State) :
  threads s !! k = Some L39 →
  is_running s = true →
  (∀ p key r, fiber_list s !! p = Some (key, r) → ready (heap s) r) →
  let s' := run_pass k (10 * length (fiber_list s) + 2) s in
  threads s' = threads s ∧
  (∃ new, trace s' = new ++ trace s ∧
          ev_name <$> reverse new = (fiber_list s).*1 ∧
          ev_info <$> reverse new = (fiber_list s).*2 ∧
          Forall (λ e, ev_stamp e = clock s ∧ ev_interval e = None) new) ∧
  (∀ key r, (key, r) ∈ fiber_list s →
     idle (heap s') r ∧ fiber_last_trigger_time s' !! key = Some (clock s)) ∧
  fiber_list s' = fiber_list s ∧ is_running s' = true ∧ clock s' = clock s ∧
  (∀ r, ready (heap s) r → ready (heap s') r).
Proof.
  destruct s as [h d m b t ts c rs tr]. cbn [threads is_running fiber_list heap
    clock trace fiber_last_trigger_time]. intros Hk -> Hready.
  pose proof (lookup_lt_Some _ _ _ Hk) as Hlt.
  destruct (rest_of_pass k 0 d t ts c rs (length d) Hlt 0 h m tr eq_refl Hready)
    as (h' & m' & new & Hrun & Hnames & Hrefs & Hst & Hr' & Hi' & _ & Hvis).
  rewrite drop_0 in Hnames, Hrefs, Hvis.
  assert (Hpass : run_pass k (10 * length d + 2) (mkState h d m true t ts c rs tr) =
            mkState h' d m' true t (<[k := L39]> ts) c rs (new ++ tr)).
  { rewrite <-Hrun. replace (10 * length d + 2) with (S (10 * length d + 1 + 0)) by lia.
    apply run_pass_next.
    - unfold step. cbn [threads]. rewrite Hk. reflexivity.
    - cbn [threads]. by rewrite list_lookup_insert_eq. }
  rewrite Hpass. clear Hpass Hrun.
  cbn [threads is_running fiber_list heap clock trace fiber_last_trigger_time].
  split; [by apply list_insert_id|]. split; [by exists new|].
  split; [done|]. done.
Qed.

(** Two fibers, the first with an argument; one pass at time 7. *)
Lemma pass_calls_every_fiber_in_order_witness :
  let s := exec [Call (CallRegisterFiber (fiber_ok "A") (Some [1%Z]) None true);
                 Call (CallRegisterFiber (fiber_ok "B") None None true);
                 Call CallRun; LoopStep 0] (init 7) in
  ∃ new, trace (run_pass 0 22 s) = new ++ trace s ∧
         ev_name <$> reverse new = ["A"; "B"] ∧
         ev_info <$> reverse new = [0; 1] ∧
         Forall (λ e, ev_stamp e = 7%Z ∧ ev_interval e = None) new.
Proof.
  refine (proj1 (proj2 (pass_calls_every_fiber_in_order 0
    (exec [Call (CallRegisterFiber (fiber_ok "A") (Some [1%Z]) None true);
           Call (CallRegisterFiber (fiber_ok "B") None None true);
           Call CallRun; LoopStep 0] (init 7)) _ _ _))).
  - vm_compute; reflexivity.
  - vm_compute; reflexivity.
  - intros [|[|p]] key r Hp; vm_compute in Hp; [| |by destruct p];
      injection Hp as <- <-; eexists; (split; [vm_compute; reflexivity|]);
      repeat split; intros n; by exists PyNone.
Defined.

(** ** Who writes what *)

Lemma RunFiberLoop_step_flags (pc : LoopPC) (s : State) (r : nat) :
  let s' := (RunFiberLoop_step pc s).1 in
  activation_status <$> heap s' !! r = activation_status <$> heap s !! r ∧
  interval <$> heap s' !! r = interval <$> heap s !! r ∧
  (is_running s = true → is_running s' = true).
Proof.
  assert (Halt : ∀ b x,
    activation_status <$> alter (set_running_status b) x (heap s) !! r
      = activation_status <$> heap s !! r ∧
    interval <$> alter (set_running_status b) x (heap s) !! r
      = interval <$> heap s !! r).
  { intros b x. destruct (decide (x = r)) as [->|Hne].
    - rewrite list_lookup_alter_eq. by destruct (heap s !! r).
    - by rewrite list_lookup_alter_ne. }
  destruct pc; simpl; repeat case_match; simpl; repeat split;
    try done; apply Halt.
Qed.

(** X11: the loop writes neither the registry nor the enabled flags, and it
    never clears [is_running].  Along a schedule made of statements of loops
    only, the registry, the number of descriptors and the enabled flag and
    interval of every descriptor stay what they were, no API call returns, and
    [is_running], once True, stays True: only [Stop] ends a loop whose fibers
    return. *)
Theorem loop_leaves_registration_alone (acts : list Action) (s : State) :
  forallb is_loop_step acts = true →
  let s' := exec acts s in
  fiber_list s' = fiber_list s ∧
  length (heap s') = length (heap s) ∧
  (∀ r, activation_status <$> heap s' !! r = activation_status <$> heap s !! r) ∧
  (∀ r, interval <$> heap s' !! r = interval <$> heap s !! r) ∧
  caller s' = caller s ∧ returned s' = returned s ∧
  (is_running s = true → is_running s' = true).
Proof.
  revert s. induction acts as [|a acts IH]; intros s Hacts; [done|].
  simpl in Hacts. apply andb_prop in Hacts as [Ha Hacts].
  destruct a as [| | |k]; try done.
  specialize (IH (step (LoopStep k) s) Hacts). cbn [exec].
  destruct IH as (E1 & E2 & E3 & E4 & E5 & E6 & E7).
  assert (Hstep :
    fiber_list (step (LoopStep k) s) = fiber_list s ∧
    length (heap (step (LoopStep k) s)) = length (heap s) ∧
    (∀ r, activation_status <$> heap (step (LoopStep k) s) !! r
          = activation_status <$> heap s !! r) ∧
    (∀ r, interval <$> heap (step (LoopStep k) s) !! r = interval <$> heap s !! r) ∧
    caller (step (LoopStep k) s) = caller s ∧
    returned (step (LoopStep k) s) = returned s ∧
    (is_running s = true → is_running (step (LoopStep k) s) = true)).
  { destruct (threads s !! k) as [pc|] eqn:Hk;
      [|unfold step; rewrite Hk; by repeat split].
    rewrite (step_LoopStep k pc s Hk).
    destruct (RunFiberLoop_step_frame pc s) as (F1 & _ & _ & F4 & F5 & F6).
    pose proof (RunFiberLoop_step_flags pc s) as Hfl.
    destruct (RunFiberLoop_step pc s) as [s1 pc1]. simpl in *.
    repeat split; try done; intros; by apply Hfl. }
  destruct Hstep as (S1 & S2 & S3 & S4 & S5 & S6 & S7).
  split; [congruence|]. split; [congruence|].
  split; [intros r; by rewrite E3|]. split; [intros r; by rewrite E4|].
  split; [congruence|]. split; [congruence|]. auto.
Qed.

Lemma loop_leaves_registration_alone_witness :
  let s := exec [Call (CallRegisterFiber (fiber_ok "T") None None true); Call CallRun]
             (init 0) in
  let s' := exec (replicate 25 (LoopStep 0)) s in
  fiber_list s' = fiber_list s ∧ returned s' = returned s.
Proof.
  destruct (loop_leaves_registration_alone (replicate 25 (LoopStep 0))
    (exec [Call (CallRegisterFiber (fiber_ok "T") None None true); Call CallRun]
       (init 0)) eq_refl) as (H1 & _ & _ & _ & _ & H6 & _).
  split; [exact H1|exact H6].
Defined.

(** X12: the API calls and the clock write neither the trace nor the
    trigger times nor a running flag.  Along a schedule without statements
    of loops, no fiber is called, [fiber_last_trigger_time] stays what it was,
    the threads that exist stay where they are, and every descriptor that
    exists keeps its running flag. *)
Theorem callers_leave_loop_state_alone (acts : list Action) (s : State) :
  forallb (λ a, negb (is_loop_step a)) acts = true →
  let s' := exec acts s in
  trace s' = trace s ∧
  fiber_last_trigger_time s' = fiber_last_trigger_time s ∧
  (∀ k pc, threads s !! k = Some pc → threads s' !! k = Some pc) ∧
  (∀ r o, heap s !! r = Some o →
     ∃ o', heap s' !! r = Some o' ∧ running_status o' = running_status o).
Proof.
  revert s. induction acts as [|a acts IH]; intros s Hacts.
  { repeat split; eauto. }
  simpl in Hacts. apply andb_prop in Hacts as [Ha Hacts].
  assert (Hno : ∀ k, a ≠ LoopStep k) by (intros k ->; done).
  specialize (IH (step a s) Hacts). cbn [exec].
  destruct IH as (E1 & E2 & E3 & E4).
  destruct (step_other_env a s Hno) as (El & Et & _).
  split; [congruence|]. split; [congruence|]. split.
  - intros k pc Hk. apply E3.
    destruct (step_other_threads a s Hno) as [[_ ->]|[_ [->| ->]]]; try done.
    by apply lookup_app_l_Some.
  - intros r o Ho.
    destruct (heap_evolves_forward _ _ _ _ (step_heap a s) Ho) as (o1 & Ho1 & _).
    destruct (step_other_running a s r o1 Hno Ho1) as [(o0 & Ho0 & Hr)|[Hnone _]];
      [|congruence].
    destruct (E4 r o1 Ho1) as (o' & Ho' & Hr'). exists o'. split; [done|].
    congruence.
Qed.

Lemma callers_leave_loop_state_alone_witness :
  let s := exec ([Call (CallRegisterFiber (fiber_ok "T") None None true); Call CallRun;
                  LoopStep 0] ++ into_call 0) (init 0) in
  let s' := exec [Call (CallRegisterFiber (fiber_ok "T") None None false);
                  Call CallStop; Tick 5; Call (CallActivateFiber (fiber_ok "T"))] s in
  trace s' = trace s ∧ fiber_last_trigger_time s' = fiber_last_trigger_time s.
Proof.
  destruct (callers_leave_loop_state_alone
    [Call (CallRegisterFiber (fiber_ok "T") None None false);
     Call CallStop; Tick 5; Call (CallActivateFiber (fiber_ok "T"))]
    (exec ([Call (CallRegisterFiber (fiber_ok "T") None None true); Call CallRun;
            LoopStep 0] ++ into_call 0) (init 0)) eq_refl) as (H1 & H2 & _).
  split; [exact H1|exact H2].
Defined.

(** ** Examples for the properties above *)

(** A loop that has passed line 41 for its only fiber when [Stop] is
    called. *)
Lemma Stop_bounds_calls_witness :
  let s := exec (replicate 20 (LoopStep 0) ++ [Tick 1; Call (CallActivateFiber (fiber_ok "T"))])
             (Stop stop_state).1 in
  is_running s = false ∧
  length (trace s) ≤ length (trace stop_state) + count_committed (threads stop_state).
Proof.
  apply (Stop_bounds_calls stop_state
    (replicate 20 (LoopStep 0) ++ [Tick 1; Call (CallActivateFiber (fiber_ok "T"))]));
    vm_compute; reflexivity.
Defined.

Lemma Stop_ends_loop_witness :
  ∃ pc', threads (exec (replicate 14 (LoopStep 0)) (Stop stop_state).1) !! 0 = Some pc' ∧
         terminated pc' = true.
Proof.
  apply (Stop_ends_loop stop_state 0 (replicate 14 (LoopStep 0))).
  - vm_compute; reflexivity.
  - vm_compute; reflexivity.
  - vm_compute; lia.
  - vm_compute; lia.
Defined.

Lemma Stop_right_after_Run_is_lost_witness :
  let s' := exec [Call CallRun; Call CallStop; LoopStep 0; LoopStep 0] (init 0) in
  is_running s' = true ∧ threads s' !! 0 = Some (L40 0 0).
Proof. exact (Stop_right_after_Run_is_lost (init 0) eq_refl). Defined.

Lemma ActivateFiber_sets_only_the_flag_witness :
  let s := (RegisterFiber (fiber_ok "T") None (Some 5%Z) false (init 0)).1 in
  let s1 := (ActivateFiber (fiber_ok "T") s).1 in
  heap s1 !! 0 = Some (mkFiberInfo "T" (fiber_ok "T") None (Some 5%Z) true false) ∧
  ActivateFiber (fiber_ok "T") s1 = (s1, Return PyNone).
Proof.
  destruct (ActivateFiber_sets_only_the_flag (fiber_ok "T")
    (RegisterFiber (fiber_ok "T") None (Some 5%Z) false (init 0)).1 0
    (mkFiberInfo "T" (fiber_ok "T") None (Some 5%Z) false false) eq_refl eq_refl)
    as (_ & H2 & _ & _ & H5).
  split; [exact H2|exact H5].
Defined.

(** The loop is at line 40 when a second fiber is registered. *)
Lemma RegisterFiber_during_pass_witness :
  let s := exec [Call (CallRegisterFiber (fiber_ok "T") None None true);
                 Call CallRun; LoopStep 0; LoopStep 0] (init 0) in
  let s' := exec [Call (CallRegisterFiber (fiber_ok "U") None None true); LoopStep 0] s in
  threads s' !! 0 =
    Some (Died (RuntimeError "dictionary changed size during iteration") None).
Proof.
  refine (proj1 (RegisterFiber_during_pass (fiber_ok "U") None None true
    (exec [Call (CallRegisterFiber (fiber_ok "T") None None true);
           Call CallRun; LoopStep 0; LoopStep 0] (init 0)) 0 0 _ _) _);
    vm_compute; reflexivity.
Defined.

(** The loop is in the call of the first of two fibers. *)
Lemma one_fiber_running_at_a_time_witness :
  let acts := [Call (CallRegisterFiber (fiber_ok "A") None None true);
               Call (CallRegisterFiber (fiber_ok "B") None None true);
               Call CallRun; LoopStep 0] ++ into_call 0 in
  let s := exec acts (init 0) in
  (IsFiberRunning (fiber_ok "A") s).2 = Return (PyBool true) ∧
  (IsFiberRunning (fiber_ok "B") s).2 = Return (PyBool false).
Proof.
  intros acts s.
  assert (HA : (IsFiberRunning (fiber_ok "A") s).2 = Return (PyBool true))
    by (vm_compute; reflexivity).
  split; [exact HA|].
  assert (HB : ∃ b, (IsFiberRunning (fiber_ok "B") s).2 = Return (PyBool b))
    by (eexists; vm_compute; reflexivity).
  destruct HB as [[|] HB]; [|exact HB].
  assert (Hadm : admissible first_start acts (init 0) = true)
    by (vm_compute; reflexivity).
  pose proof (proj2 (one_fiber_running_at_a_time 0 acts Hadm)
                (fiber_ok "A") (fiber_ok "B") HA HB) as Hname.
  discriminate Hname.
Defined.

Lemma disabled_fiber_keeps_trigger_time_witness :
  let s := exec idle_schedule (init 0) in
  fiber_last_trigger_time
    (exec (Tick 100 :: replicate 30 (LoopStep 0) ++ [Call CallStop]) s) !! "T"
  = fiber_last_trigger_time s !! "T".
Proof.
  apply (disabled_fiber_keeps_trigger_time "T" 0 idle_schedule
           (Tick 100 :: replicate 30 (LoopStep 0) ++ [Call CallStop]));
    vm_compute; reflexivity.
Defined.

Lemma registry_order_is_stable_witness :
  let s := exec [Call (CallRegisterFiber (fiber_ok "T") None None true);
                 Call (CallRegisterFiber (fiber_ok "U") None None true)] (init 0) in
  (fiber_list
     (exec [Call (CallRegisterFiber (fiber_bad "T") None (Some 1%Z) false);
            Call (CallRegisterFiber (fiber_ok "V") None None true)] s)).*1 !! 0
  = Some "T".
Proof.
  refine (proj1 registry_order_is_stable _ _ 0 "T" _). vm_compute; reflexivity.
Defined.
